(** * The Q&A extraction script [scripts/extract_qa.py], embedded in Rocq

    The script reads documents of several formats, sends their text to a
    language-model service, stamps every returned record with an identifier
    and writes the records of all files to one JSON file.

    The embedding follows the script function by function.  Python values
    that come out of [json.loads] are an inductive type, exceptions and
    [sys.exit] are an outcome type, the file system and the log of service
    calls are threaded through a state monad, and the libraries the script
    calls (the service client, jinja2, json, the document parsers) are fields
    of a record [Host] that every function takes as a Section variable.
    Console output ([print]) is not modelled. *)

From Stdlib Require Import ZArith Ascii String List Bool Lia.
From Stdlib Require Import DecimalString DecimalNat DecimalFacts.
From Stdlib Require Import Floats.PrimFloat.
From stdpp Require Import base option list strings gmap.

Set Warnings "-inexact-float,-register-all".

(** ** Exceptions, [sys.exit] and results *)

Inductive exn :=
  | ImportError
  | TypeError
  | KeyError
  | JSONDecodeError
  | UnicodeDecodeError
  | FileNotFoundError
  | IsADirectoryError
  | BadFile                       (* a document library rejects the file *)
  | TemplateError                 (* raised by jinja2 *)
  | ServiceError (msg : string).  (* raised by the service client *)

(** What running a piece of Python gives: a value, an exception that is
    still propagating, or [sys.exit(code)]. *)
Inductive outcome (A : Type) :=
  | Ok (a : A)
  | Raise (e : exn)
  | Exit (code : Z).
Arguments Ok {A} a.
Arguments Raise {A} e.
Arguments Exit {A} code.

Definition obind {A B} (o : outcome A) (k : A -> outcome B) : outcome B :=
  match o with
  | Ok a => k a
  | Raise e => Raise e
  | Exit c => Exit c
  end.

Notation "x <~ o ;; k" := (obind o (fun x => k))
  (at level 100, o at next level, right associativity).

(** [try: body except ImportError: ...; sys.exit(1)] *)
Definition except_ImportError_exit {A} (body : outcome A) : outcome A :=
  match body with
  | Raise ImportError => Exit 1
  | r => r
  end.

(** ** Python strings

    A Python [str] is a [string]; each [ascii] stands for one code point
    below 256. *)

Module Py.

(** [str.isspace] of one character, for the code points below 256. *)
Definition isspace (c : ascii) : bool :=
  let n := nat_of_ascii c in
  ((9 <=? n) && (n <=? 13)) || ((28 <=? n) && (n <=? 32))
  || (n =? 133) || (n =? 160).

Fixpoint lstrip (s : string) : string :=
  match s with
  | String c s' => if isspace c then lstrip s' else s
  | EmptyString => EmptyString
  end.

(** Strips from the right: the tail is stripped first, and the head goes
    too when nothing is left behind it. *)
Fixpoint rstrip (s : string) : string :=
  match s with
  | String c s' =>
      match rstrip s' with
      | EmptyString => if isspace c then EmptyString else String c EmptyString
      | r => String c r
      end
  | EmptyString => EmptyString
  end.

Definition strip (s : string) : string := rstrip (lstrip s).

(** Truth value of a string: [if s:]. *)
Definition truthy_str (s : string) : bool :=
  match s with EmptyString => false | _ => true end.

(** [str.lower] of one character, for the code points below 256. *)
Definition lower_char (c : ascii) : ascii :=
  let n := nat_of_ascii c in
  if ((65 <=? n) && (n <=? 90))
     || ((192 <=? n) && (n <=? 222) && negb (n =? 215))
  then ascii_of_nat (n + 32) else c.

Fixpoint lower (s : string) : string :=
  match s with
  | String c s' => String (lower_char c) (lower s')
  | EmptyString => EmptyString
  end.

(** [sep.join(parts)] *)
Fixpoint join (sep : string) (parts : list string) : string :=
  match parts with
  | [] => ""
  | [p] => p
  | p :: rest => p +:+ sep +:+ join sep rest
  end.

(** [s.endswith(suf)] *)
Definition endswith (s suf : string) : bool :=
  let n := String.length s in
  let k := String.length suf in
  (k <=? n) && String.eqb (String.substring (n - k) k s) suf.

(** [s.rfind(c)]: the index of the last [c] in [s], or -1. *)
Fixpoint rfind (c : ascii) (s : string) : Z :=
  match s with
  | EmptyString => (-1)%Z
  | String a s' =>
      let i := rfind c s' in
      if (0 <=? i)%Z then (i + 1)%Z
      else if Ascii.eqb a c then 0%Z else (-1)%Z
  end.

(** [str(n)] for a non-negative [int]. *)
Definition str_nat (n : nat) : string :=
  NilEmpty.string_of_uint (Nat.to_uint n).

(** [str(z)] for an [int]. *)
Definition str_int (z : Z) : string :=
  NilEmpty.string_of_int (Z.to_int z).

End Py.

(** ** Paths ([pathlib.Path])

    A path is the list of its components; the empty list is the current
    directory. *)

Definition Path := list string.

Definition path_name (p : Path) : string := List.last p "".
Definition path_parent (p : Path) : Path := List.removelast p.
(** [p / child] *)
Definition path_join (p : Path) (child : string) : Path := p ++ [child].

(** [PurePath.suffix]: the part of the name from its last dot on, when that
    dot is neither the first nor the last character. *)
Definition path_suffix (p : Path) : string :=
  let name := path_name p in
  let i := Py.rfind "."%char name in
  if ((0 <? i) && (i <? Z.of_nat (String.length name) - 1))%Z
  then String.substring (Z.to_nat i) (String.length name - Z.to_nat i) name
  else "".

(** [PurePath.stem]: the name without its suffix. *)
Definition path_stem (p : Path) : string :=
  let name := path_name p in
  let i := Py.rfind "."%char name in
  if ((0 <? i) && (i <? Z.of_nat (String.length name) - 1))%Z
  then String.substring 0 (Z.to_nat i) name
  else name.

(** ** Python values

    The values [json.loads] can return.  A [dict] keeps its keys in
    insertion order, so it is an association list. *)

Inductive pyval :=
  | PNone
  | PBool (b : bool)
  | PInt (z : Z)
  | PFloat (f : float)
  | PStr (s : string)
  | PList (items : list pyval)
  | PDict (entries : list (string * pyval)).

(** [d[k]] as a lookup that may find nothing. *)
Fixpoint dict_get (k : string) (d : list (string * pyval)) : option pyval :=
  match d with
  | [] => None
  | (k', v) :: d' => if String.eqb k' k then Some v else dict_get k d'
  end.

(** [d[k] = v]: an existing key keeps its place, a new key goes last. *)
Fixpoint dict_set (k : string) (v : pyval) (d : list (string * pyval))
  : list (string * pyval) :=
  match d with
  | [] => [(k, v)]
  | (k', v') :: d' =>
      if String.eqb k' k then (k', v) :: d' else (k', v') :: dict_set k v d'
  end.

(** [obj[k] = v] with a string key: only a [dict] supports it. *)
Definition py_setitem (obj : pyval) (k : string) (v : pyval) : outcome pyval :=
  match obj with
  | PDict d => Ok (PDict (dict_set k v d))
  | _ => Raise TypeError
  end.

Definition chars (s : string) : list pyval :=
  map (fun c => PStr (String c EmptyString)) (list_ascii_of_string s).

(** What iterating over a value yields: the items of a list, the
    characters of a string, the keys of a dict. *)
Definition py_iter (v : pyval) : outcome (list pyval) :=
  match v with
  | PList items => Ok items
  | PStr s => Ok (chars s)
  | PDict d => Ok (map (fun kv => PStr (fst kv)) d)
  | _ => Raise TypeError
  end.

(** [existing + all_qa] where [all_qa] is a list. *)
Definition py_add_list (existing : pyval) (all_qa : list pyval)
  : outcome (list pyval) :=
  match existing with
  | PList items => Ok (items ++ all_qa)
  | _ => Raise TypeError
  end.

(** ** Spreadsheets, documents and the file system *)

(** The value of a spreadsheet cell.  [COther] is any other object
    (a date, a time span), given by its truth value and its [str()]. *)
Inductive cell :=
  | CNone
  | CBool (b : bool)
  | CInt (z : Z)
  | CFloat (f : float)
  | CStr (s : string)
  | COther (truth : bool) (text : string).

(** [wb.worksheets], each sheet as its [iter_rows(values_only=True)]. *)
Definition workbook := list (list (list cell)).

(** What a file holds, by what it parses as. *)
Inductive content :=
  | Text (s : string)
  | Docx (paragraphs : list string)
  | Pdf (pages : list string)
  | Xlsx (wb : workbook).

Inductive node :=
  | File (c : content)
  | Dir.

(** The entries of the file system, in the order a directory scan lists
    them. *)
Definition FS := list (Path * node).

Fixpoint fs_entry (fs : FS) (p : Path) : option node :=
  match fs with
  | [] => None
  | (q, n) :: fs' => if decide (q = p) then Some n else fs_entry fs' p
  end.

(** The current directory [[]] always exists. *)
Definition fs_lookup (fs : FS) (p : Path) : option node :=
  if decide (p = []) then Some Dir else fs_entry fs p.

Definition is_dir (fs : FS) (p : Path) : bool :=
  match fs_lookup fs p with Some Dir => true | _ => false end.

Definition exists_ (fs : FS) (p : Path) : bool :=
  match fs_lookup fs p with Some _ => true | None => false end.

(** [d.glob('*' + ext)]: the entries directly under [d] whose name ends
    with [ext]. *)
Definition glob (fs : FS) (d : Path) (ext : string) : list Path :=
  filter (fun p => bool_decide (p <> [] /\ path_parent p = d)
                   && Py.endswith (path_name p) ext)
         (map fst fs).

Fixpoint fs_replace (p : Path) (n : node) (fs : FS) : FS :=
  match fs with
  | [] => []
  | (q, m) :: fs' =>
      if decide (q = p) then (q, n) :: fs' else (q, m) :: fs_replace p n fs'
  end.

(** [p.write_text(s)] *)
Definition fs_write_text (fs : FS) (p : Path) (s : string) : outcome FS :=
  match fs_lookup fs p with
  | Some Dir => Raise IsADirectoryError
  | Some (File _) => Ok (fs_replace p (File (Text s)) fs)
  | None =>
      match fs_lookup fs (path_parent p) with
      | Some Dir => Ok (fs ++ [(p, File (Text s))])
      | _ => Raise FileNotFoundError
      end
  end.

(** [p.read_text()] *)
Definition fs_read_text (fs : FS) (p : Path) : outcome string :=
  match fs_lookup fs p with
  | Some (File (Text s)) => Ok s
  | Some (File _) => Raise UnicodeDecodeError
  | Some Dir => Raise IsADirectoryError
  | None => Raise FileNotFoundError
  end.

(** [Document(p).paragraphs], as their texts. *)
Definition fs_docx (fs : FS) (p : Path) : outcome (list string) :=
  match fs_lookup fs p with
  | Some (File (Docx ps)) => Ok ps
  | Some (File _) => Raise BadFile
  | Some Dir => Raise IsADirectoryError
  | None => Raise FileNotFoundError
  end.

(** [fitz.open(p)], as the [get_text()] of its pages. *)
Definition fs_pdf (fs : FS) (p : Path) : outcome (list string) :=
  match fs_lookup fs p with
  | Some (File (Pdf ps)) => Ok ps
  | Some (File _) => Raise BadFile
  | Some Dir => Raise IsADirectoryError
  | None => Raise FileNotFoundError
  end.

(** [openpyxl.load_workbook(p)] *)
Definition fs_xlsx (fs : FS) (p : Path) : outcome workbook :=
  match fs_lookup fs p with
  | Some (File (Xlsx wb)) => Ok wb
  | Some (File _) => Raise BadFile
  | Some Dir => Raise IsADirectoryError
  | None => Raise FileNotFoundError
  end.

(** ** The model table *)

Record ModelConfig := {
  id : string;
  temperature : float;
}.

(** [MODELS]: the available models with their configurations. *)
Definition MODELS : gmap string ModelConfig :=
  <[ "gemini-3-flash-preview" :=
       {| id := "gemini-3-pro-preview"; temperature := 1.0 |} ]>
  (<[ "gemini-2.0-flash" :=
       {| id := "gemini-2.0-flash"; temperature := 0.7 |} ]> ∅).

(** [d[k]]: raises [KeyError] when the key is missing. *)
Definition dict_getitem {V} (d : gmap string V) (k : string) : outcome V :=
  match d !! k with
  | Some v => Ok v
  | None => Raise KeyError
  end.

(** [d.get(k, dflt)] *)
Definition dict_get_default {V} (d : gmap string V) (k : string) (dflt : V) : V :=
  match d !! k with
  | Some v => v
  | None => dflt
  end.

(** [MODELS.get(model_key, MODELS['gemini-2.0-flash'])]; the default is
    evaluated first, as Python evaluates arguments before the call. *)
Definition model_config_of (model_key : string) : outcome ModelConfig :=
  dflt <~ dict_getitem MODELS "gemini-2.0-flash" ;;
  Ok (dict_get_default MODELS model_key dflt).

(** ** The request to the service *)

(** The [response_schema] literal of [extract_with_gemini], as the Python
    dict it is. *)
Definition response_schema : pyval :=
  PDict [
    ("type", PStr "array");
    ("items", PDict [
       ("type", PStr "object");
       ("properties", PDict [
          ("category", PDict [("type", PStr "string")]);
          ("question", PDict [("type", PStr "string")]);
          ("answer", PDict [("type", PStr "string")])
        ]);
       ("required", PList [PStr "category"; PStr "question"; PStr "answer"])
     ])
  ].

Record GenerationConfig := {
  gc_temperature : float;
  gc_response_mime_type : string;
  gc_response_schema : pyval;
}.

(** One call [genai.GenerativeModel(...).generate_content(user_prompt)],
    with the key given to [genai.configure]. *)
Record Request := {
  rq_api_key : string;
  rq_model_name : string;
  rq_system_instruction : string;
  rq_generation_config : GenerationConfig;
  rq_user_prompt : string;
}.

(** ** The host: what the script finds outside itself *)

Record Host := {
  (** whether [import name] succeeds *)
  installed : string -> bool;
  (** [os.environ.get('GEMINI_API_KEY')] *)
  environ_GEMINI_API_KEY : option string;
  (** what [input(...)] returns *)
  input_line : string;
  (** [Path(__file__).parent] *)
  script_dir : Path;
  (** [Template(source).render(content=content)] *)
  jinja_render : string -> string -> outcome string;
  (** [model.generate_content(user_prompt).text], given the calls made
      before: the model is sampled anew at each call, so equal requests
      need not get equal answers *)
  generate_content : list Request -> Request -> outcome string;
  json_loads : string -> outcome pyval;
  (** [json.dumps(v, indent=2)] *)
  json_dumps : pyval -> string;
  (** [str(f)] for a float *)
  str_float : float -> string;
}.

(** ** The state: the file system and the calls made to the service *)

(** The calls made so far stand for the state of the service: what it
    answers next may depend on them.  A process starts with the file system
    it finds and with the service in any state. *)
Record World := {
  fs : FS;
  calls : list Request;
}.

Definition M (A : Type) : Type := World -> outcome A * World.

Definition ret {A} (a : A) : M A := fun w => (Ok a, w).

Definition bind {A B} (m : M A) (k : A -> M B) : M B :=
  fun w =>
    match m w with
    | (Ok a, w') => k a w'
    | (Raise e, w') => (Raise e, w')
    | (Exit c, w') => (Exit c, w')
    end.

Notation "x <- m ;; k" := (bind m (fun x => k))
  (at level 100, m at next level, right associativity).

(** A step that does not touch the state. *)
Definition lift {A} (o : outcome A) : M A := fun w => (o, w).

(** A step that reads the file system. *)
Definition reading {A} (f : FS -> outcome A) : M A := fun w => (f (fs w), w).

(** [sys.exit(code)] *)
Definition sys_exit {A} (code : Z) : M A := lift (Exit code).

Definition nl : string := String (ascii_of_nat 10) EmptyString.
Definition tab : string := String (ascii_of_nat 9) EmptyString.

(** ** The script *)

Section Script.

Variable h : Host.

Definition import_module (name : string) : outcome unit :=
  if installed h name then Ok tt else Raise ImportError.

(** *** File readers *)

Definition read_txt (path : Path) : M string :=
  reading (fun fs => fs_read_text fs path).

Definition read_md (path : Path) : M string :=
  reading (fun fs => fs_read_text fs path).

Definition read_docx (path : Path) : M string :=
  reading (fun fs =>
    except_ImportError_exit (
      _ <~ import_module "docx" ;;
      paragraphs <~ fs_docx fs path ;;
      Ok (Py.join (nl +:+ nl) paragraphs))).

(** The loop [for page in doc: text.append(page.get_text())]. *)
Definition read_pdf (path : Path) : M string :=
  reading (fun fs =>
    except_ImportError_exit (
      _ <~ import_module "fitz" ;;
      doc <~ fs_pdf fs path ;;
      let text := fold_left (fun text page => text ++ [page]) doc [] in
      Ok (Py.join (nl +:+ nl) text))).

(** Truth value of a cell value: [if c]. *)
Definition cell_truthy (c : cell) : bool :=
  match c with
  | CNone => false
  | CBool b => b
  | CInt z => negb (z =? 0)%Z
  | CFloat f => negb (PrimFloat.eqb f 0)
  | CStr s => Py.truthy_str s
  | COther truth _ => truth
  end.

(** [str(c)] *)
Definition cell_str (c : cell) : string :=
  match c with
  | CNone => "None"
  | CBool true => "True"
  | CBool false => "False"
  | CInt z => Py.str_int z
  | CFloat f => str_float h f
  | CStr s => s
  | COther _ text => text
  end.

(** [str(c) if c else ''] *)
Definition render_cell (c : cell) : string :=
  if cell_truthy c then cell_str c else "".

(** The body of the inner loop of [read_xlsx], on the list [text]. *)
Definition xlsx_row_step (text : list string) (row : list cell) : list string :=
  let row_text := Py.join tab (map render_cell row) in
  if Py.truthy_str (Py.strip row_text) then text ++ [row_text] else text.

Definition read_xlsx (path : Path) : M string :=
  reading (fun fs =>
    except_ImportError_exit (
      _ <~ import_module "openpyxl" ;;
      wb <~ fs_xlsx fs path ;;
      let text :=
        fold_left (fun text sheet => fold_left xlsx_row_step sheet text) wb [] in
      Ok (Py.join nl text))).

(** [READERS], in the order its keys were inserted. *)
Definition READERS : list (string * (Path -> M string)) :=
  [ (".txt", read_txt);
    (".md", read_md);
    (".docx", read_docx);
    (".pdf", read_pdf);
    (".xlsx", read_xlsx) ].

Fixpoint readers_get (suffix : string) (rs : list (string * (Path -> M string)))
  : option (Path -> M string) :=
  match rs with
  | [] => None
  | (k, r) :: rs' => if String.eqb k suffix then Some r else readers_get suffix rs'
  end.

(** *** The service call *)

(** [model.generate_content(user_prompt)], line 143: the answer is the
    service's, given what it was asked before, and the call is logged. *)
Definition call_service (rq : Request) : M string :=
  fun w => (generate_content h (calls w) rq,
            {| fs := fs w; calls := calls w ++ [rq] |}).

Definition extract_with_gemini (content api_key model_key : string) : M pyval :=
  _ <- lift (except_ImportError_exit (import_module "google.generativeai")) ;;
  _ <- lift (except_ImportError_exit (import_module "jinja2")) ;;
  let prompts_dir := path_join (script_dir h) "prompts" in
  system_prompt <- reading (fun fs => fs_read_text fs (path_join prompts_dir "system.txt")) ;;
  user_source <- reading (fun fs => fs_read_text fs (path_join prompts_dir "user.txt")) ;;
  user_prompt <- lift (jinja_render h user_source content) ;;
  model_config <- lift (model_config_of model_key) ;;
  let model :=
    {| rq_api_key := api_key;
       rq_model_name := id model_config;
       rq_system_instruction := system_prompt;
       rq_generation_config :=
         {| gc_temperature := temperature model_config;
            gc_response_mime_type := "application/json";
            gc_response_schema := response_schema |};
       rq_user_prompt := user_prompt |} in
  response_text <- call_service model ;;
  lift (json_loads h response_text).

(** *** One file *)

(** [f"{file_path.stem}_{i+1}.md"] *)
Definition make_id (stem : string) (i : nat) : string :=
  stem +:+ "_" +:+ Py.str_nat (i + 1) +:+ ".md".

(** The loop [for i, qa in enumerate(qa_pairs): qa['id'] = ...], from
    index [i] on. *)
Fixpoint stamp_from (stem : string) (i : nat) (items : list pyval)
  : outcome (list pyval) :=
  match items with
  | [] => Ok []
  | qa :: rest =>
      qa' <~ py_setitem qa "id" (PStr (make_id stem i)) ;;
      rest' <~ stamp_from stem (S i) rest ;;
      Ok (qa' :: rest')
  end.

(** The loop on [qa_pairs] itself.  The items of a list are changed in
    place; the characters of a string and the keys of a dict are
    temporaries, and the assignment on them raises. *)
Definition stamp (stem : string) (qa_pairs : pyval) : outcome pyval :=
  items <~ py_iter qa_pairs ;;
  items' <~ stamp_from stem 0 items ;;
  Ok (match qa_pairs with PList _ => PList items' | _ => qa_pairs end).

Definition process_file (file_path : Path) (api_key model : string) : M pyval :=
  let suffix := Py.lower (path_suffix file_path) in
  match readers_get suffix READERS with
  | None => ret (PList [])
  | Some reader =>
      content <- reader file_path ;;
      if negb (Py.truthy_str (Py.strip content)) then ret (PList [])
      else
        qa_pairs <- extract_with_gemini content api_key model ;;
        lift (stamp (path_stem file_path) qa_pairs)
  end.

(** *** The run *)

Record Args := {
  input : list Path;
  output : Path;
  model : string;
  append : bool;
}.

(** The loop that collects the files to process. *)
Definition collect_files (fs : FS) (inputs : list Path) : list Path :=
  fold_left
    (fun files path =>
       if is_dir fs path then
         fold_left (fun files ext => files ++ glob fs path ext) (map fst READERS) files
       else if exists_ fs path then files ++ [path]
       else files)
    inputs [].

(** The loop [for file_path in files: all_qa.extend(process_file(...))]. *)
Fixpoint process_all (files : list Path) (api_key model : string)
    (all_qa : list pyval) : M (list pyval) :=
  match files with
  | [] => ret all_qa
  | file_path :: rest =>
      qa_pairs <- process_file file_path api_key model ;;
      items <- lift (py_iter qa_pairs) ;;
      process_all rest api_key model (all_qa ++ items)
  end.

(** [output_path.write_text(text)] *)
Definition write_text (p : Path) (text : string) : M unit :=
  fun w =>
    match fs_write_text (fs w) p text with
    | Ok fs' => (Ok tt, {| fs := fs'; calls := calls w |})
    | Raise e => (Raise e, w)
    | Exit c => (Exit c, w)
    end.

(** The key: [os.environ.get('GEMINI_API_KEY')], or else what is typed,
    stripped. *)
Definition get_api_key : string :=
  match environ_GEMINI_API_KEY h with
  | Some k => if Py.truthy_str k then k else Py.strip (input_line h)
  | None => Py.strip (input_line h)
  end.

(** The block [# Handle append mode]. *)
Definition handle_append (args : Args) (all_qa : list pyval) : M (list pyval) :=
  let output_path := output args in
  append_now <- reading (fun fs => Ok (append args && exists_ fs output_path)) ;;
  if (append_now : bool) then
    text <- reading (fun fs => fs_read_text fs output_path) ;;
    existing <- lift (json_loads h text) ;;
    lift (py_add_list existing all_qa)
  else ret all_qa.

(** What [parser.parse_args()] accepts: at least one input ([nargs='+'])
    and a model that is one of the [choices]. *)
Definition argparse_accepts (args : Args) : bool :=
  negb (bool_decide (input args = []))
  && bool_decide (is_Some (MODELS !! model args)).

(** [main], from the parsed arguments on and up to the list [all_qa] that
    is written.  [argparse] exits with status 2 on arguments it does not
    accept. *)
Definition main_all_qa (args : Args) : M (list pyval) :=
  if negb (argparse_accepts args) then sys_exit 2
  else
    _ <- lift (dict_getitem MODELS (model args)) ;;
    let api_key := get_api_key in
    if negb (Py.truthy_str api_key) then sys_exit 1
    else
      files <- reading (fun fs => Ok (collect_files fs (input args))) ;;
      if bool_decide (files = []) then sys_exit 1
      else
        all_qa <- process_all files api_key (model args) [] ;;
        handle_append args all_qa.

Definition main (args : Args) : M unit :=
  all_qa <- main_all_qa args ;;
  write_text (output args) (json_dumps h (PList all_qa)).

End Script.

(** ** A stand-in for the [json] module

    A printer and a parser for the JSON the script handles (no numbers
    with a fraction, no escapes other than those of the quote and the
    backslash), used to build the concrete hosts the examples run on. *)

Module Json.

Definition dq : ascii := ascii_of_nat 34.
Definition bs : ascii := ascii_of_nat 92.

Fixpoint escape (s : string) : string :=
  match s with
  | EmptyString => EmptyString
  | String c s' =>
      if Ascii.eqb c dq || Ascii.eqb c bs then String bs (String c (escape s'))
      else String c (escape s')
  end.

Definition quote (s : string) : string :=
  String dq (escape s +:+ String dq EmptyString).

Fixpoint pad (level : nat) : string :=
  match level with
  | O => ""
  | S n => "  " +:+ pad n
  end.

(** [json.dumps(v, indent=2)], at nesting depth [level]. *)
Fixpoint dumps_at (level : nat) (v : pyval) : string :=
  match v with
  | PNone => "null"
  | PBool true => "true"
  | PBool false => "false"
  | PInt z => Py.str_int z
  | PFloat _ => "NaN"
  | PStr s => quote s
  | PList [] => "[]"
  | PList items =>
      "[" +:+ nl
      +:+ Py.join ("," +:+ nl)
            (map (fun x => pad (S level) +:+ dumps_at (S level) x) items)
      +:+ nl +:+ pad level +:+ "]"
  | PDict [] => "{}"
  | PDict entries =>
      "{" +:+ nl
      +:+ Py.join ("," +:+ nl)
            (map (fun kv =>
                    match kv with
                    | (k, x) => pad (S level) +:+ quote k +:+ ": " +:+ dumps_at (S level) x
                    end) entries)
      +:+ nl +:+ pad level +:+ "}"
  end.

Definition dumps (v : pyval) : string := dumps_at 0 v.

Fixpoint skip_ws (s : list ascii) : list ascii :=
  match s with
  | c :: s' =>
      if (nat_of_ascii c =? 32) || (nat_of_ascii c =? 9)
         || (nat_of_ascii c =? 10) || (nat_of_ascii c =? 13)
      then skip_ws s' else s
  | [] => []
  end.

(** The rest of [s] after the literal [lit], when [s] starts with it. *)
Fixpoint after (lit s : list ascii) : option (list ascii) :=
  match lit, s with
  | [], _ => Some s
  | a :: lit', b :: s' => if Ascii.eqb a b then after lit' s' else None
  | _ :: _, [] => None
  end.

(** The body of a string literal, up to its closing quote. *)
Fixpoint parse_string (s : list ascii) : option (string * list ascii) :=
  match s with
  | [] => None
  | c :: s' =>
      if Ascii.eqb c dq then Some (EmptyString, s')
      else if Ascii.eqb c bs then
        match s' with
        | e :: s'' =>
            match parse_string s'' with
            | Some (str, r) => Some (String e str, r)
            | None => None
            end
        | [] => None
        end
      else
        match parse_string s' with
        | Some (str, r) => Some (String c str, r)
        | None => None
        end
  end.

Definition is_digit (c : ascii) : bool :=
  (48 <=? nat_of_ascii c) && (nat_of_ascii c <=? 57).

Fixpoint parse_digits (acc : Z) (s : list ascii) : Z * list ascii :=
  match s with
  | c :: s' =>
      if is_digit c
      then parse_digits (10 * acc + Z.of_nat (nat_of_ascii c - 48)) s'
      else (acc, s)
  | [] => (acc, [])
  end.

Fixpoint parse_value (fuel : nat) (s : list ascii) : option (pyval * list ascii) :=
  match fuel with
  | O => None
  | S fuel' =>
      match skip_ws s with
      | [] => None
      | c :: r =>
          if Ascii.eqb c dq then
            match parse_string r with
            | Some (str, r') => Some (PStr str, r')
            | None => None
            end
          else if Ascii.eqb c "["%char then
            match skip_ws r with
            | c' :: r' =>
                if Ascii.eqb c' "]"%char then Some (PList [], r')
                else parse_items fuel' r []
            | [] => None
            end
          else if Ascii.eqb c "{"%char then
            match skip_ws r with
            | c' :: r' =>
                if Ascii.eqb c' "}"%char then Some (PDict [], r')
                else parse_members fuel' r []
            | [] => None
            end
          else if Ascii.eqb c "-"%char then
            match r with
            | d :: _ =>
                if is_digit d
                then let (z, r') := parse_digits 0 r in Some (PInt (- z), r')
                else None
            | [] => None
            end
          else if is_digit c then
            let (z, r') := parse_digits 0 (c :: r) in Some (PInt z, r')
          else
            match after (list_ascii_of_string "null") (c :: r) with
            | Some r' => Some (PNone, r')
            | None =>
                match after (list_ascii_of_string "true") (c :: r) with
                | Some r' => Some (PBool true, r')
                | None =>
                    match after (list_ascii_of_string "false") (c :: r) with
                    | Some r' => Some (PBool false, r')
                    | None => None
                    end
                end
            end
      end
  end
with parse_items (fuel : nat) (s : list ascii) (acc : list pyval)
  : option (pyval * list ascii) :=
  match fuel with
  | O => None
  | S fuel' =>
      match parse_value fuel' s with
      | Some (v, r) =>
          match skip_ws r with
          | c :: r' =>
              if Ascii.eqb c ","%char then parse_items fuel' r' (acc ++ [v])
              else if Ascii.eqb c "]"%char then Some (PList (acc ++ [v]), r')
              else None
          | [] => None
          end
      | None => None
      end
  end
with parse_members (fuel : nat) (s : list ascii) (acc : list (string * pyval))
  : option (pyval * list ascii) :=
  match fuel with
  | O => None
  | S fuel' =>
      match skip_ws s with
      | q :: r0 =>
          if Ascii.eqb q dq then
            match parse_string r0 with
            | Some (k, r1) =>
                match skip_ws r1 with
                | c :: r2 =>
                    if Ascii.eqb c ":"%char then
                      match parse_value fuel' r2 with
                      | Some (v, r3) =>
                          match skip_ws r3 with
                          | c' :: r4 =>
                              if Ascii.eqb c' ","%char
                              then parse_members fuel' r4 (dict_set k v acc)
                              else if Ascii.eqb c' "}"%char
                              then Some (PDict (dict_set k v acc), r4)
                              else None
                          | [] => None
                          end
                      | None => None
                      end
                    else None
                | [] => None
                end
            | None => None
            end
          else None
      | [] => None
      end
  end.

Definition loads (text : string) : outcome pyval :=
  let s := list_ascii_of_string text in
  match parse_value (S (List.length s)) s with
  | Some (v, rest) =>
      match skip_ws rest with
      | [] => Ok v
      | _ :: _ => Raise JSONDecodeError
      end
  | None => Raise JSONDecodeError
  end.

End Json.

(** ** Notions the properties are stated with *)

(** A string that is empty or holds only whitespace. *)
Fixpoint all_space (s : string) : bool :=
  match s with
  | EmptyString => true
  | String c s' => Py.isspace c && all_space s'
  end.

(** [CategoryType]: the closed set of categories. *)
Definition CategoryType : list string :=
  ["Personal"; "Ethics"; "Leadership"; "Teamwork"; "Healthcare"; "Technical"; "Other"].

Definition is_str_field (k : string) (d : list (string * pyval)) : bool :=
  match dict_get k d with
  | Some (PStr _) => true
  | _ => false
  end.

(** An object with the string fields [category], [question] and [answer]. *)
Definition has_required_fields (v : pyval) : bool :=
  match v with
  | PDict d => is_str_field "category" d && is_str_field "question" d
               && is_str_field "answer" d
  | _ => false
  end.

(** An array of such objects: the shape the response is asked to have. *)
Definition conforms (v : pyval) : bool :=
  match v with
  | PList items => forallb has_required_fields items
  | _ => false
  end.

(** The [category] of a record is one of [CategoryType]. *)
Definition category_in_closed_set (v : pyval) : bool :=
  match v with
  | PDict d =>
      match dict_get "category" d with
      | Some (PStr c) => bool_decide (c ∈ CategoryType)
      | _ => false
      end
  | _ => false
  end.

(** The class [InterviewQA]: a [category] of [CategoryType], and strings
    [question] and [answer]. *)
Definition InterviewQA_valid (v : pyval) : bool :=
  has_required_fields v && category_in_closed_set v.

Definition is_dict (v : pyval) : bool :=
  match v with PDict _ => true | _ => false end.

(** The record [qa] with its [id] set. *)
Definition with_id (ident : string) (qa : pyval) : pyval :=
  match qa with
  | PDict d => PDict (dict_set "id" (PStr ident) d)
  | _ => qa
  end.

(** What the stamping loop makes of a parsed response: an array of
    objects comes back with the identifiers set, an empty string or object
    as it is, and anything else raises. *)
Definition stamped (stem : string) (qa_pairs : pyval) : outcome pyval :=
  match qa_pairs with
  | PList items =>
      if forallb is_dict items
      then Ok (PList (imap (fun i => with_id (make_id stem i)) items))
      else Raise TypeError
  | PStr EmptyString => Ok (PStr EmptyString)
  | PDict [] => Ok (PDict [])
  | _ => Raise TypeError
  end.

(** The [id] of a record. *)
Definition record_id (qa : pyval) : option pyval :=
  match qa with
  | PDict d => dict_get "id" d
  | _ => None
  end.

Definition str_list (v : pyval) : list string :=
  match v with
  | PList items =>
      flat_map (fun x => match x with PStr s => [s] | _ => [] end) items
  | _ => []
  end.

(** Whether a value is accepted by a response schema written as the script
    writes it: [type] is [string], [array] (with [items]) or [object] (with
    [properties] and [required]), and [enum], when given, lists the strings
    allowed. *)
Fixpoint schema_accepts (schema : pyval) (v : pyval) {struct v} : bool :=
  match schema with
  | PDict sd =>
      match dict_get "type" sd, v with
      | Some (PStr "string"), PStr s =>
          match dict_get "enum" sd with
          | Some allowed => bool_decide (s ∈ str_list allowed)
          | None => true
          end
      | Some (PStr "array"), PList items =>
          match dict_get "items" sd with
          | Some item_schema => forallb (schema_accepts item_schema) items
          | None => true
          end
      | Some (PStr "object"), PDict d =>
          forallb (fun k => bool_decide (is_Some (dict_get k d)))
                  (match dict_get "required" sd with
                   | Some r => str_list r
                   | None => []
                   end)
          && forallb (fun kv =>
                        match kv with
                        | (k, x) =>
                            match dict_get "properties" sd with
                            | Some (PDict props) =>
                                match dict_get k props with
                                | Some sub => schema_accepts sub x
                                | None => true
                                end
                            | _ => true
                            end
                        end) d
      | _, _ => false
      end
  | _ => false
  end.

(** The file's text at [p], when [p] is a text file. *)
Definition file_text (w : World) (p : Path) : option string :=
  match fs_lookup (fs w) p with
  | Some (File (Text s)) => Some s
  | _ => None
  end.

(** ** A concrete host and file system for the examples *)

Module Demo.

(** The template stand-in: the document text replaces the first
    [{{ content }}] of the source. *)
Fixpoint render (source content : string) : string :=
  match source with
  | EmptyString => EmptyString
  | String c rest =>
      if String.prefix "{{ content }}" source
      then content +:+ String.substring 13 (String.length source - 13) source
      else String c (render rest content)
  end.

Definition system_txt : string := "Extract every interview question and its answer.".
Definition user_txt : string := "Document: {{ content }}".

Definition qa (category question answer : string) : pyval :=
  PDict [("category", PStr category); ("question", PStr question);
         ("answer", PStr answer)].

(** A record without its [answer]. *)
Definition no_answer : pyval :=
  PDict [("category", PStr "Personal"); ("question", PStr "Tell me about yourself")].

(** A record whose category is none of [CategoryType]. *)
Definition banana : pyval := qa "Banana" "Why medicine?" "To help people.".

Definition three_records : list pyval :=
  [ qa "Personal" "Tell me about yourself" "I am diligent.";
    qa "Ethics" "Is honesty important?" "Always.";
    qa "Teamwork" "Do you like teams?" "Yes." ].

Definition ethics_record : pyval := qa "Ethics" "Is honesty important?" "Always.".

(** The output of a run over [ethics.md] alone. *)
Definition ethics_output : string :=
  Json.dumps (PList [with_id "ethics_1.md" ethics_record]).

(** What the service answers, by the text of the document it is shown.
    Shown the output of an earlier run, it extracts the record in it again. *)
Definition replies : list (string * outcome string) :=
  [ ("interview text", Ok (Json.dumps (PList three_records)));
    (ethics_output, Ok (Json.dumps (PList [ethics_record])));
    ("ethics text", Ok (Json.dumps (PList [ethics_record])));
    ("teams text", Ok (Json.dumps (PList [qa "Teamwork" "Do you like teams?" "Yes."])));
    ("short text", Ok (Json.dumps (PList [no_answer])));
    ("fruit text", Ok (Json.dumps (PList [banana])));
    ("broken text", Raise (ServiceError "503")) ].

Fixpoint reply_to (prompt : string) (table : list (string * outcome string))
  : outcome string :=
  match table with
  | [] => Ok "[]"
  | (doc, r) :: table' =>
      if String.eqb (render user_txt doc) prompt then r else reply_to prompt table'
  end.

Definition host : Host :=
  {| installed := fun _ => true;
     environ_GEMINI_API_KEY := Some "key";
     input_line := "";
     script_dir := ["scripts"];
     jinja_render := fun source content => Ok (render source content);
     generate_content := fun _ rq => reply_to (rq_user_prompt rq) replies;
     json_loads := Json.loads;
     json_dumps := Json.dumps;
     str_float := fun _ => "nan" |}.

Definition sheet1 : list (list cell) :=
  [ [CStr "Question"; CNone; CStr "Answer"];
    [CNone; CNone; CNone];
    [CInt 0; CBool false; CStr ""];
    [CInt 3; CBool true; CStr "x"] ].

Definition sheet2 : list (list cell) :=
  [ [CInt 0; CStr "x"] ].

Definition files : FS :=
  [ (["scripts"], Dir);
    (["scripts"; "prompts"], Dir);
    (["scripts"; "prompts"; "system.txt"], File (Text system_txt));
    (["scripts"; "prompts"; "user.txt"], File (Text user_txt));
    (["docs"], Dir);
    (["docs"; "interview.txt"], File (Text "interview text"));
    (["docs"; "ethics.md"], File (Text "ethics text"));
    (["docs"; "teams.txt"], File (Text "teams text"));
    (["docs"; "blank.txt"], File (Text ("  " +:+ nl +:+ tab)));
    (["docs"; "short.txt"], File (Text "short text"));
    (["docs"; "fruit.md"], File (Text "fruit text"));
    (["docs"; "broken.txt"], File (Text "broken text"));
    (["docs"; "sheet.xlsx"], File (Xlsx [sheet1; sheet2]));
    (["notes"], Dir);
    (["notes"; "teams.txt"], File (Text "teams text")) ].

Definition world : World := {| fs := files; calls := [] |}.

Definition args (inputs : list Path) (appending : bool) : Args :=
  {| input := inputs; output := ["questions.json"];
     model := "gemini-2.0-flash"; append := appending |}.

(** Arguments that put the output among the notes. *)
Definition args_into_notes (inputs : list Path) (appending : bool) : Args :=
  {| input := inputs; output := ["notes"; "all.md"];
     model := "gemini-2.0-flash"; append := appending |}.

End Demo.


(** ** Further notions and fixtures *)

(** The batches of the files of a run, file by file: what each file adds
    to [all_qa], up to the first file that does not end well. *)
Fixpoint batches (h : Host) (files : list Path) (api_key model : string)
    (w : World) : list (list pyval) :=
  match files with
  | [] => []
  | file_path :: rest =>
      match process_file h file_path api_key model w with
      | (Ok qa_pairs, w1) =>
          match py_iter qa_pairs with
          | Ok items => items :: batches h rest api_key model w1
          | _ => []
          end
      | _ => []
      end
  end.

(** The service gives equal answers to equal requests, whatever calls
    were made before. *)
Definition answers_by_request (h : Host) : Prop :=
  forall history history' rq,
    generate_content h history rq = generate_content h history' rq.

(** Whether [process_file] gets as far as the extractor on a file: its
    suffix is a supported one and its reader returns text that is not
    blank. *)
Definition has_text (h : Host) (fs : FS) (file_path : Path) : bool :=
  match readers_get (Py.lower (path_suffix file_path)) (READERS h) with
  | Some reader =>
      match fst (reader file_path {| fs := fs; calls := [] |}) with
      | Ok content => negb (all_space content)
      | _ => false
      end
  | None => false
  end.

(** A workbook with every falsy cell value replaced by [None]. *)
Definition without_falsy (wb : workbook) : workbook :=
  map (map (map (fun c => if cell_truthy c then c else CNone))) wb.

(** The request [extract_with_gemini] builds from the prompt texts. *)
Definition request_of (api_key model_key system_prompt user_prompt : string)
  : Request :=
  let model_config :=
    match MODELS !! model_key with
    | Some entry => entry
    | None => {| id := "gemini-2.0-flash"; temperature := 0.7 |}
    end in
  {| rq_api_key := api_key;
     rq_model_name := id model_config;
     rq_system_instruction := system_prompt;
     rq_generation_config :=
       {| gc_temperature := temperature model_config;
          gc_response_mime_type := "application/json";
          gc_response_schema := response_schema |};
     rq_user_prompt := user_prompt |}.

Module More.

(** The host of the examples with one module that cannot be imported. *)
Definition host_without (missing : string) : Host :=
  {| installed := fun name => negb (String.eqb name missing);
     environ_GEMINI_API_KEY := Some "key";
     input_line := "";
     script_dir := ["scripts"];
     jinja_render := fun source content => Ok (Demo.render source content);
     generate_content := fun _ rq => Demo.reply_to (rq_user_prompt rq) Demo.replies;
     json_loads := Json.loads;
     json_dumps := Json.dumps;
     str_float := fun _ => "nan" |}.

(** The host of the examples with no key in the environment and a blank
    line typed. *)
Definition host_without_key : Host :=
  {| installed := fun _ => true;
     environ_GEMINI_API_KEY := None;
     input_line := "  ";
     script_dir := ["scripts"];
     jinja_render := fun source content => Ok (Demo.render source content);
     generate_content := fun _ rq => Demo.reply_to (rq_user_prompt rq) Demo.replies;
     json_loads := Json.loads;
     json_dumps := Json.dumps;
     str_float := fun _ => "nan" |}.

(** The host of the examples with a service that samples: asked first in
    a process it answers as the table has it, asked after another call it
    answers with one record of its own. *)
Definition host_sampling : Host :=
  {| installed := fun _ => true;
     environ_GEMINI_API_KEY := Some "key";
     input_line := "";
     script_dir := ["scripts"];
     jinja_render := fun source content => Ok (Demo.render source content);
     generate_content := fun history rq =>
       match history with
       | [] => Demo.reply_to (rq_user_prompt rq) Demo.replies
       | _ :: _ => Ok (Json.dumps (PList [Demo.banana]))
       end;
     json_loads := Json.loads;
     json_dumps := Json.dumps;
     str_float := fun _ => "nan" |}.

Definition files : FS :=
  Demo.files ++
  [ (["docs"; "cv.docx"], File (Docx ["interview"; "text"]));
    (["docs"; "scan.pdf"], File (Pdf [" "; ""; nl]));
    (["docs"; "zeros.xlsx"], File (Xlsx [[[CInt 0; CNone]; [CStr ""]]; [[CBool false]]]));
    (["docs"; "notes.pdf"], File (Text "not a PDF"));
    (["other"], Dir);
    (["other"; "interview.md"], File (Text "interview text")) ].

Definition world : World := {| fs := files; calls := [] |}.

(** A world whose output file is there and is not JSON. *)
Definition world_with_bad_output : World :=
  {| fs := Demo.files ++ [(["questions.json"], File (Text "not json"))];
     calls := [] |}.

End More.

(** * Properties *)

(** ** The helpers on small inputs *)

Example suffix_of_upper_case_name : path_suffix ["docs"; "Interview.DOCX"] = ".DOCX".
Proof. reflexivity. Qed.

Example suffix_of_dot_file : path_suffix ["docs"; ".txt"] = "".
Proof. reflexivity. Qed.

Example stem_keeps_inner_dots : path_stem ["docs"; "a.b.txt"] = "a.b".
Proof. reflexivity. Qed.

Example strip_both_ends : Py.strip (" " +:+ nl +:+ "a b" +:+ tab) = "a b".
Proof. reflexivity. Qed.

Example lower_of_suffix : Py.lower ".DocX" = ".docx".
Proof. reflexivity. Qed.

Example make_id_of_tenth : make_id "interview" 9 = "interview_10.md".
Proof. reflexivity. Qed.

Example loads_of_dumps :
  Json.loads (Json.dumps (PList Demo.three_records)) = Ok (PList Demo.three_records).
Proof. reflexivity. Qed.

Example collect_directory :
  collect_files Demo.host Demo.files [["notes"]; ["docs"; "ethics.md"]; ["nowhere"]]
  = [["notes"; "teams.txt"]; ["docs"; "ethics.md"]].
Proof. reflexivity. Qed.

(** ** Whitespace and stripping *)

Lemma lstrip_all_space s : all_space s = true -> Py.lstrip s = "".
Proof.
  induction s as [|c s IH]; simpl; [reflexivity|].
  intros [Hc Hs]%andb_true_iff. rewrite Hc. auto.
Qed.

Lemma lstrip_keeps_non_space s :
  all_space s = false -> all_space (Py.lstrip s) = false.
Proof.
  induction s as [|c s IH]; simpl; [discriminate|].
  destruct (Py.isspace c) eqn:Hc; simpl; [exact IH|].
  intros _. rewrite Hc. reflexivity.
Qed.

Lemma rstrip_empty_iff s : Py.rstrip s = "" <-> all_space s = true.
Proof.
  induction s as [|c s IH]; simpl; [tauto|].
  destruct (Py.rstrip s) eqn:Hr.
  - destruct (Py.isspace c); simpl.
    + split; [intros _; apply IH; reflexivity | reflexivity].
    + split; discriminate.
  - split; [discriminate|].
    intros [_ Hs]%andb_true_iff. apply IH in Hs. discriminate.
Qed.

Lemma strip_empty_iff s : Py.strip s = "" <-> all_space s = true.
Proof.
  unfold Py.strip. rewrite rstrip_empty_iff. split.
  - intros H. destruct (all_space s) eqn:Hs; [reflexivity|].
    apply lstrip_keeps_non_space in Hs. congruence.
  - intros H. rewrite (lstrip_all_space _ H). reflexivity.
Qed.

Lemma truthy_str_false s : Py.truthy_str s = false <-> s = "".
Proof. destruct s; simpl; split; congruence. Qed.

(** [not content.strip()] holds exactly of the blank strings. *)
Lemma blank_test s : negb (Py.truthy_str (Py.strip s)) = all_space s.
Proof.
  destruct (all_space s) eqn:Hs.
  - apply strip_empty_iff in Hs. rewrite Hs. reflexivity.
  - destruct (Py.strip s) eqn:Hst; [|reflexivity].
    apply strip_empty_iff in Hst. congruence.
Qed.

(** ** The readers only read *)

Lemma reading_world {A} (f : FS -> outcome A) w o w' :
  reading f w = (o, w') -> w' = w /\ o = f (fs w).
Proof. unfold reading. intros [= <- <-]. auto. Qed.

Lemma readers_get_cases h suffix reader :
  readers_get suffix (READERS h) = Some reader ->
  reader = read_txt \/ reader = read_md \/ reader = read_docx h
  \/ reader = read_pdf h \/ reader = read_xlsx h.
Proof.
  unfold READERS. cbn [readers_get].
  repeat (destruct (String.eqb _ suffix); [intros [= <-]; tauto|]).
  discriminate.
Qed.

Lemma readers_only_read h suffix reader path w o w' :
  readers_get suffix (READERS h) = Some reader ->
  reader path w = (o, w') -> w' = w.
Proof.
  intros Hr Hrun.
  destruct (readers_get_cases _ _ _ Hr) as [->|[->|[->|[->| ->]]]];
    apply reading_world in Hrun; tauto.
Qed.

(** ** The spreadsheet reader *)

Lemma xlsx_rows_fold h rows text :
  fold_left (xlsx_row_step h) rows text =
  text ++ List.filter (fun t => negb (all_space t))
            (map (fun row => Py.join tab (map (render_cell h) row)) rows).
Proof.
  revert text. induction rows as [|row rows IH]; intros text; simpl.
  - rewrite app_nil_r. reflexivity.
  - rewrite IH. unfold xlsx_row_step.
    rewrite <- (negb_involutive (Py.truthy_str _)), blank_test.
    destruct (all_space _); simpl; [reflexivity|].
    rewrite <- app_assoc. reflexivity.
Qed.

Lemma xlsx_sheets_fold h (wb : workbook) text :
  fold_left (fun text sheet => fold_left (xlsx_row_step h) sheet text) wb text =
  text ++ List.filter (fun t => negb (all_space t))
            (map (fun row => Py.join tab (map (render_cell h) row)) (concat wb)).
Proof.
  revert text. induction wb as [|sheet wb IH]; intros text; simpl.
  - rewrite app_nil_r. reflexivity.
  - rewrite IH, xlsx_rows_fold, map_app, List.filter_app, <- app_assoc.
    reflexivity.
Qed.

(** On a workbook, [read_xlsx] returns the newline-joined texts of the
    rows of all sheets, in workbook order, each row the tab-joined rendering
    of its cell values, without the rows whose text is blank. *)
Lemma read_xlsx_rows h path w wb :
  installed h "openpyxl" = true ->
  fs_xlsx (fs w) path = Ok wb ->
  read_xlsx h path w =
    (Ok (Py.join nl
           (List.filter (fun t => negb (all_space t))
              (map (fun row => Py.join tab (map (render_cell h) row))
                   (concat wb)))), w).
Proof.
  intros Hinst Hwb.
  unfold read_xlsx, reading, import_module. rewrite Hinst, Hwb. simpl.
  rewrite xlsx_sheets_fold. reflexivity.
Qed.

Lemma render_cell_without_falsy h c :
  render_cell h (if cell_truthy c then c else CNone) = render_cell h c.
Proof.
  unfold render_cell. destruct (cell_truthy c) eqn:Hc; [rewrite Hc|];
    reflexivity.
Qed.

Example read_xlsx_of_two_sheets :
  read_xlsx Demo.host ["docs"; "sheet.xlsx"] Demo.world =
    (Ok ("Question" +:+ tab +:+ tab +:+ "Answer" +:+ nl
         +:+ "3" +:+ tab +:+ "True" +:+ tab +:+ "x" +:+ nl
         +:+ tab +:+ "x"), Demo.world).
Proof. reflexivity. Qed.

(** C8: the row with the cell values 0 and [x] of the second sheet: the
    tab-joined cell values are [0], a tab and [x]; the text read has the tab
    and [x] only, the 0 is lost.  The test [if c] of line 67 asks for the
    truth of the value where it means to ask whether the cell is empty. *)
Lemma C8_zero_cell_is_dropped :
  fs_xlsx Demo.files ["docs"; "sheet.xlsx"] = Ok [Demo.sheet1; Demo.sheet2]
  /\ Demo.sheet2 = [[CInt 0; CStr "x"]]
  /\ Py.join tab (map (cell_str Demo.host) [CInt 0; CStr "x"])
     = "0" +:+ tab +:+ "x"
  /\ fst (read_xlsx Demo.host ["docs"; "sheet.xlsx"] Demo.world)
     = Ok ("Question" +:+ tab +:+ tab +:+ "Answer" +:+ nl
           +:+ "3" +:+ tab +:+ "True" +:+ tab +:+ "x" +:+ nl
           +:+ tab +:+ "x").
Proof. repeat split; vm_compute; reflexivity. Qed.

(** C9: the text [read_xlsx] returns has, for every cell whose value is
    falsy, the empty string and not the text of the value: so for the
    number 0, [False] and the empty string, which have a text of their own,
    as for an empty cell.  Such values are lost from the text: the workbook
    reads the same as the one with every falsy value replaced by an empty
    cell. *)
Theorem C9_falsy_cells_render_empty h path w wb :
  installed h "openpyxl" = true ->
  fs_xlsx (fs w) path = Ok wb ->
  read_xlsx h path w =
    (Ok (Py.join nl
           (List.filter (fun t => negb (all_space t))
              (map (fun row =>
                      Py.join tab
                        (map (fun c => if cell_truthy c then cell_str h c else "")
                             row))
                   (concat wb)))), w)
  /\ (forall path' w',
        fs_xlsx (fs w') path' = Ok (without_falsy wb) ->
        fst (read_xlsx h path' w') = fst (read_xlsx h path w))
  /\ cell_truthy (CInt 0) = false /\ cell_str h (CInt 0) = "0"
  /\ cell_truthy (CBool false) = false /\ cell_str h (CBool false) = "False"
  /\ cell_truthy (CStr "") = false
  /\ cell_truthy (CFloat 0) = false
  /\ cell_truthy CNone = false.
Proof.
  intros Hinst Hwb. split; [|split; [|repeat split; reflexivity]].
  - exact (read_xlsx_rows h path w wb Hinst Hwb).
  - intros path' w' Hwb'.
    rewrite (read_xlsx_rows h path' w' _ Hinst Hwb'),
      (read_xlsx_rows h path w _ Hinst Hwb).
    simpl. do 3 f_equal. unfold without_falsy.
    rewrite <- concat_map, map_map. apply map_ext. intros row.
    rewrite map_map. f_equal. apply map_ext. intros c.
    apply render_cell_without_falsy.
Qed.

Lemma C9_falsy_cells_render_empty_witness :
  fs_xlsx Demo.files ["docs"; "sheet.xlsx"]
  = Ok [ [ [CStr "Question"; CNone; CStr "Answer"];
           [CNone; CNone; CNone];
           [CInt 0; CBool false; CStr ""];
           [CInt 3; CBool true; CStr "x"] ];
         [ [CInt 0; CStr "x"] ] ]
  /\ read_xlsx Demo.host ["docs"; "sheet.xlsx"] Demo.world =
       (Ok ("Question" +:+ tab +:+ tab +:+ "Answer" +:+ nl
            +:+ "3" +:+ tab +:+ "True" +:+ tab +:+ "x" +:+ nl
            +:+ tab +:+ "x"), Demo.world).
Proof.
  split; [reflexivity|].
  destruct (C9_falsy_cells_render_empty Demo.host ["docs"; "sheet.xlsx"]
              Demo.world [Demo.sheet1; Demo.sheet2] eq_refl eq_refl)
    as [Hread _].
  rewrite Hread. reflexivity.
Defined.

(** ** Blank files *)

(** C5: a file whose text is empty or all whitespace yields no record, and
    the service is not called for it: the state, with its log of calls, is
    left as it was, and the run goes on with the records it had. *)
Theorem C5_blank_file_skipped h file_path api_key model reader content w :
  readers_get (Py.lower (path_suffix file_path)) (READERS h) = Some reader ->
  reader file_path w = (Ok content, w) ->
  all_space content = true ->
  process_file h file_path api_key model w = (Ok (PList []), w)
  /\ calls (snd (process_file h file_path api_key model w)) = calls w
  /\ forall rest all_qa,
       process_all h (file_path :: rest) api_key model all_qa w =
       process_all h rest api_key model all_qa w.
Proof.
  intros Hreader Hread Hblank.
  assert (Hpf : process_file h file_path api_key model w = (Ok (PList []), w)).
  { unfold process_file. rewrite Hreader. unfold bind. rewrite Hread.
    rewrite blank_test, Hblank. reflexivity. }
  split; [exact Hpf|split].
  - rewrite Hpf. reflexivity.
  - intros rest all_qa. simpl. unfold bind at 1. rewrite Hpf.
    unfold bind at 1. unfold lift at 1. simpl. rewrite app_nil_r. reflexivity.
Qed.

Lemma C5_blank_file_skipped_witness :
  process_file Demo.host ["docs"; "blank.txt"] "key" "gemini-2.0-flash" Demo.world
  = (Ok (PList []), Demo.world).
Proof.
  apply (C5_blank_file_skipped Demo.host ["docs"; "blank.txt"] "key"
           "gemini-2.0-flash" read_txt ("  " +:+ nl +:+ tab) Demo.world);
    reflexivity.
Defined.

(** ** The model table *)

Lemma default_model_entry :
  dict_getitem MODELS "gemini-2.0-flash"
  = Ok {| id := "gemini-2.0-flash"; temperature := 0.7 |}.
Proof. reflexivity. Qed.

Lemma MODELS_keys model_key :
  is_Some (MODELS !! model_key) <->
  model_key = "gemini-2.0-flash" \/ model_key = "gemini-3-flash-preview".
Proof.
  unfold MODELS. rewrite !lookup_insert_is_Some, lookup_empty. split.
  - intros [->|[_ [->|[_ [x Hx]]]]]; [tauto|tauto|discriminate].
  - intros [->| ->]; [right; split; [discriminate|left; reflexivity]|left; reflexivity].
Qed.

Lemma lift_world {A} (o : outcome A) w o' w' :
  lift o w = (o', w') -> w' = w /\ o' = o.
Proof. unfold lift. intros [= <- <-]. auto. Qed.

(** The calls [extract_with_gemini] adds to the log carry the resolved
    model. *)
Lemma extract_with_gemini_calls h content api_key model_key w o w' :
  extract_with_gemini h content api_key model_key w = (o, w') ->
  fs w' = fs w /\
  (calls w' = calls w \/
   exists cfg rq,
     model_config_of model_key = Ok cfg /\ calls w' = calls w ++ [rq]
     /\ rq_api_key rq = api_key
     /\ rq_model_name rq = id cfg
     /\ gc_temperature (rq_generation_config rq) = temperature cfg
     /\ gc_response_schema (rq_generation_config rq) = response_schema).
Proof.
  unfold extract_with_gemini. intros H.
  unfold bind at 1 in H. destruct (lift _ w) as [o1 w1] eqn:E1.
  apply lift_world in E1 as [-> ->].
  destruct (except_ImportError_exit _); [|injection H as <- <-; auto..].
  unfold bind at 1 in H. destruct (lift _ w) as [o1 w1] eqn:E1.
  apply lift_world in E1 as [-> ->].
  destruct (except_ImportError_exit _); [|injection H as <- <-; auto..].
  unfold bind at 1 in H. destruct (reading _ w) as [o1 w1] eqn:E1.
  apply reading_world in E1 as [-> ->].
  destruct (fs_read_text _ _) as [system_prompt| |]; [|injection H as <- <-; auto..].
  unfold bind at 1 in H. destruct (reading _ w) as [o1 w1] eqn:E1.
  apply reading_world in E1 as [-> ->].
  destruct (fs_read_text _ _) as [user_source| |]; [|injection H as <- <-; auto..].
  unfold bind at 1 in H. destruct (lift _ w) as [o1 w1] eqn:E1.
  apply lift_world in E1 as [-> ->].
  destruct (jinja_render _ _ _) as [user_prompt| |]; [|injection H as <- <-; auto..].
  unfold bind at 1 in H. destruct (lift _ w) as [o1 w1] eqn:E1.
  apply lift_world in E1 as [-> ->].
  destruct (model_config_of model_key) as [cfg| |] eqn:Ecfg;
    [|injection H as <- <-; auto..].
  unfold bind at 1, call_service at 1 in H.
  destruct (generate_content _ _ _) as [text| |].
  - unfold lift in H. injection H as <- <-. split; [reflexivity|].
    right. eexists cfg, _. repeat split; reflexivity.
  - injection H as <- <-. split; [reflexivity|].
    right. eexists cfg, _. repeat split; reflexivity.
  - injection H as <- <-. split; [reflexivity|].
    right. eexists cfg, _. repeat split; reflexivity.
Qed.

Lemma model_config_of_eq model_key :
  model_config_of model_key =
  Ok (match MODELS !! model_key with
      | Some entry => entry
      | None => {| id := "gemini-2.0-flash"; temperature := 0.7 |}
      end).
Proof. unfold model_config_of. rewrite default_model_entry. reflexivity. Qed.

(** [extract_with_gemini] step by step. *)
Lemma extract_with_gemini_eq h content api_key model_key w :
  let prompts_dir := path_join (script_dir h) "prompts" in
  extract_with_gemini h content api_key model_key w =
  if negb (installed h "google.generativeai") then (Exit 1, w)
  else if negb (installed h "jinja2") then (Exit 1, w)
  else
    match fs_read_text (fs w) (path_join prompts_dir "system.txt") with
    | Ok system_prompt =>
        match fs_read_text (fs w) (path_join prompts_dir "user.txt") with
        | Ok user_source =>
            match jinja_render h user_source content with
            | Ok user_prompt =>
                let rq := request_of api_key model_key system_prompt user_prompt in
                (text <~ generate_content h (calls w) rq ;; json_loads h text,
                 {| fs := fs w; calls := calls w ++ [rq] |})
            | Raise e => (Raise e, w)
            | Exit c => (Exit c, w)
            end
        | Raise e => (Raise e, w)
        | Exit c => (Exit c, w)
        end
    | Raise e => (Raise e, w)
    | Exit c => (Exit c, w)
    end.
Proof.
  intros prompts_dir. subst prompts_dir.
  unfold extract_with_gemini, bind, lift, reading, call_service, import_module.
  destruct (installed h "google.generativeai"); [|reflexivity].
  destruct (installed h "jinja2"); [|reflexivity]. simpl.
  destruct (fs_read_text (fs w) _) as [system_prompt| |]; try reflexivity.
  destruct (fs_read_text (fs w) _) as [user_source| |]; try reflexivity.
  destruct (jinja_render h user_source content) as [user_prompt| |];
    try reflexivity.
  rewrite model_config_of_eq. unfold request_of. cbv zeta.
  destruct (generate_content h _ _); reflexivity.
Qed.

(** C7: a selector that is not in the table resolves to the entry of
    [gemini-2.0-flash], and nothing is raised; a selector of the table
    resolves to its own entry; and the extractor, once the libraries are
    imported, the two prompt files read and the template rendered, makes
    one call to the service, which carries the identifier and the
    temperature of the resolved entry, and returns the parsed reply of that
    call. *)
Theorem C7_model_selector_resolution
    h content api_key model_key w system_prompt user_source user_prompt :
  let prompts_dir := path_join (script_dir h) "prompts" in
  let resolved :=
    match MODELS !! model_key with
    | Some entry => entry
    | None => {| id := "gemini-2.0-flash"; temperature := 0.7 |}
    end in
  installed h "google.generativeai" = true ->
  installed h "jinja2" = true ->
  fs_read_text (fs w) (path_join prompts_dir "system.txt") = Ok system_prompt ->
  fs_read_text (fs w) (path_join prompts_dir "user.txt") = Ok user_source ->
  jinja_render h user_source content = Ok user_prompt ->
  model_config_of model_key = Ok resolved
  /\ (MODELS !! model_key = None <->
       model_key <> "gemini-2.0-flash" /\ model_key <> "gemini-3-flash-preview")
  /\ exists rq,
       extract_with_gemini h content api_key model_key w
       = (text <~ generate_content h (calls w) rq ;; json_loads h text,
          {| fs := fs w; calls := calls w ++ [rq] |})
       /\ rq_model_name rq = id resolved
       /\ gc_temperature (rq_generation_config rq) = temperature resolved
       /\ rq_user_prompt rq = user_prompt.
Proof.
  intros prompts_dir resolved Hgenai Hjinja Hsys Husr Hrender.
  subst prompts_dir resolved.
  split; [|split].
  - apply model_config_of_eq.
  - rewrite <- not_elem_of_dom, elem_of_dom, MODELS_keys. tauto.
  - exists (request_of api_key model_key system_prompt user_prompt).
    split; [|split; [|split]]; try reflexivity.
    rewrite extract_with_gemini_eq. cbv zeta.
    rewrite Hgenai, Hjinja, Hsys, Husr, Hrender. reflexivity.
Qed.

Lemma C7_model_selector_resolution_witness :
  MODELS !! "gemini-1.5-pro" = None
  /\ model_config_of "gemini-1.5-pro"
     = Ok {| id := "gemini-2.0-flash"; temperature := 0.7 |}
  /\ exists rq,
       extract_with_gemini Demo.host "teams text" "key" "gemini-1.5-pro"
         Demo.world
       = (text <~ generate_content Demo.host [] rq ;;
          json_loads Demo.host text,
          {| fs := Demo.files; calls := [rq] |})
       /\ rq_model_name rq = "gemini-2.0-flash"
       /\ gc_temperature (rq_generation_config rq) = 0.7%float
       /\ rq_user_prompt rq = "Document: teams text".
Proof.
  split; [reflexivity|].
  destruct (C7_model_selector_resolution Demo.host "teams text" "key"
              "gemini-1.5-pro" Demo.world Demo.system_txt Demo.user_txt
              "Document: teams text" eq_refl eq_refl eq_refl eq_refl eq_refl)
    as (Hcfg & _ & rq & Hrun & Hid & Ht & Hp).
  split; [exact Hcfg|].
  exists rq. split; [exact Hrun|]. split; [exact Hid|].
  split; [exact Ht|exact Hp].
Defined.

(** ** Stamping the records of one file *)

Lemma stamp_from_spec stem items i :
  stamp_from stem i items =
  if forallb is_dict items
  then Ok (imap (fun j => with_id (make_id stem (i + j))) items)
  else Raise TypeError.
Proof.
  revert i. induction items as [|qa rest IH]; intros i; simpl; [reflexivity|].
  destruct qa; simpl; try reflexivity.
  rewrite IH. destruct (forallb is_dict rest); simpl; [|reflexivity].
  rewrite Nat.add_0_r. f_equal. f_equal.
  apply imap_ext. intros j x _. simpl. do 2 f_equal. lia.
Qed.

Lemma stamp_spec stem qa_pairs : stamp stem qa_pairs = stamped stem qa_pairs.
Proof.
  unfold stamp, stamped.
  destruct qa_pairs as [| | | |s|items|d]; simpl; try reflexivity.
  - destruct s; reflexivity.
  - rewrite stamp_from_spec. destruct (forallb is_dict items); reflexivity.
  - destruct d as [|[k v] d]; reflexivity.
Qed.

Lemma process_file_extracts h file_path api_key model reader content w :
  readers_get (Py.lower (path_suffix file_path)) (READERS h) = Some reader ->
  reader file_path w = (Ok content, w) ->
  all_space content = false ->
  process_file h file_path api_key model w =
    (obind (fst (extract_with_gemini h content api_key model w))
           (stamp (path_stem file_path)),
     snd (extract_with_gemini h content api_key model w)).
Proof.
  intros Hreader Hread Hblank. unfold process_file. rewrite Hreader.
  unfold bind at 1. rewrite Hread, blank_test, Hblank. simpl.
  unfold bind. destruct (extract_with_gemini _ _ _ _ _) as [[qa| |] w1];
    reflexivity.
Qed.

(** How [process_file] can end well: with no record and the state
    untouched, or with the stamped response of the service. *)
Lemma process_file_ok_inv h file_path api_key model w v w' :
  process_file h file_path api_key model w = (Ok v, w') ->
  (v = PList [] /\ w' = w)
  \/ exists content qa_pairs,
       all_space content = false
       /\ extract_with_gemini h content api_key model w = (Ok qa_pairs, w')
       /\ stamp (path_stem file_path) qa_pairs = Ok v.
Proof.
  unfold process_file.
  destruct (readers_get _ _) as [reader|] eqn:Hreader;
    [|intros [= <- <-]; left; auto].
  unfold bind at 1. destruct (reader file_path w) as [[content| |] w1] eqn:Hread;
    [|discriminate..].
  apply (readers_only_read _ _ _ _ _ _ _ Hreader) in Hread as ->.
  rewrite blank_test. destruct (all_space content) eqn:Hblank; simpl.
  - intros [= <- <-]. left; auto.
  - unfold bind. destruct (extract_with_gemini _ _ _ _ _) as [[qa| |] w2] eqn:Hx;
      [|discriminate..].
    unfold lift. intros [= Hst <-]. right. eauto.
Qed.

(** ** Identifiers *)

Lemma list_ascii_of_string_app a b :
  list_ascii_of_string (a +:+ b) = list_ascii_of_string a ++ list_ascii_of_string b.
Proof.
  induction a as [|c a IH]; [reflexivity|].
  change (String c a +:+ b) with (String c (a +:+ b)). simpl.
  f_equal. exact IH.
Qed.

Lemma string_app_inj_r a b s : a +:+ s = b +:+ s -> a = b.
Proof.
  intros H. apply (f_equal list_ascii_of_string) in H.
  rewrite !list_ascii_of_string_app in H. apply app_inv_tail in H.
  apply (f_equal string_of_list_ascii) in H.
  rewrite !string_of_list_ascii_of_string in H. exact H.
Qed.

Lemma str_nat_inj n m : Py.str_nat n = Py.str_nat m -> n = m.
Proof.
  unfold Py.str_nat. intros H.
  apply (f_equal NilEmpty.uint_of_string) in H.
  rewrite !NilEmpty.usu in H. injection H as H.
  apply (f_equal Nat.of_uint) in H.
  rewrite !DecimalNat.Unsigned.of_to in H. exact H.
Qed.

Lemma make_id_inj stem i j : make_id stem i = make_id stem j -> i = j.
Proof.
  unfold make_id. intros H.
  apply String.app_inj in H. apply (String.app_inj "_") in H.
  apply string_app_inj_r in H. apply str_nat_inj in H. lia.
Qed.

Lemma dict_get_set k v d : dict_get k (dict_set k v d) = Some v.
Proof.
  induction d as [|[k' v'] d IH]; simpl.
  - rewrite String.eqb_refl. reflexivity.
  - destruct (String.eqb k' k) eqn:E; simpl; rewrite E; auto.
Qed.

Lemma dict_get_set_ne k k' v d :
  k <> k' -> dict_get k' (dict_set k v d) = dict_get k' d.
Proof.
  intros Hne. induction d as [|[k0 v0] d IH]; simpl.
  - apply String.eqb_neq in Hne. rewrite Hne. reflexivity.
  - destruct (String.eqb k0 k) eqn:E; simpl.
    + apply String.eqb_eq in E as ->.
      apply String.eqb_neq in Hne. rewrite Hne. reflexivity.
    + rewrite IH. reflexivity.
Qed.

Lemma record_id_with_id ident qa :
  is_dict qa = true -> record_id (with_id ident qa) = Some (PStr ident).
Proof. destruct qa; try discriminate. intros _. apply dict_get_set. Qed.

(** C6: the records of one file carry the identifiers
    [{stem}_{i+1}.md], [i] being the zero-based position of the record in
    the response and [stem] the file name without its extension: the batch
    is the response in its order, each record with its [id] set, and the
    identifiers of one batch are pairwise distinct. *)
Theorem C6_record_ids h file_path api_key model w v w' :
  process_file h file_path api_key model w = (Ok v, w') ->
  exists batch,
    py_iter v = Ok batch
    /\ (forall i qa, batch !! i = Some qa ->
          record_id qa =
          Some (PStr (path_stem file_path +:+ "_" +:+ Py.str_nat (i + 1) +:+ ".md")))
    /\ (forall i j qa qb,
          batch !! i = Some qa -> batch !! j = Some qb -> i <> j ->
          record_id qa <> record_id qb)
    /\ (batch = []
        \/ exists content response,
             extract_with_gemini h content api_key model w
             = (Ok (PList response), w')
             /\ length batch = length response
             /\ forall i r, response !! i = Some r ->
                  batch !! i
                  = Some (with_id (make_id (path_stem file_path) i) r)).
Proof.
  intros Hrun.
  assert (Hbatch : exists batch,
    py_iter v = Ok batch
    /\ (batch = []
        \/ exists content response,
             extract_with_gemini h content api_key model w
             = (Ok (PList response), w')
             /\ forallb is_dict response = true
             /\ batch = imap (fun i => with_id (make_id (path_stem file_path) i))
                             response)).
  { apply process_file_ok_inv in Hrun as [[-> _]|Hx].
    - exists []. auto.
    - destruct Hx as (content & qa_pairs & _ & Hx & Hst).
      rewrite stamp_spec in Hst. unfold stamped in Hst.
      destruct qa_pairs as [| | | |s|items|d]; try discriminate.
      + destruct s; [|discriminate]. injection Hst as <-. exists []. auto.
      + destruct (forallb is_dict items) eqn:Hd; [|discriminate].
        injection Hst as <-. eexists. split; [reflexivity|].
        right. eauto.
      + destruct d; [|discriminate]. injection Hst as <-. exists []. auto. }
  destruct Hbatch as (batch & Hiter & Hshape). exists batch.
  assert (Hid : forall i qa, batch !! i = Some qa ->
            record_id qa = Some (PStr (make_id (path_stem file_path) i))).
  { intros i qa Hi. destruct Hshape as [->|(c & resp & _ & Hd & ->)];
      [discriminate|].
    rewrite list_lookup_imap in Hi.
    destruct (resp !! i) as [r|] eqn:Hr; [|discriminate].
    injection Hi as <-. apply record_id_with_id.
    rewrite forallb_forall in Hd. apply Hd.
    apply list_elem_of_In, list_elem_of_lookup. eauto. }
  split; [exact Hiter|split; [exact Hid|split]].
  - intros i j qa qb Hi Hj Hne Heq.
    rewrite (Hid _ _ Hi), (Hid _ _ Hj) in Heq. injection Heq as Heq.
    apply make_id_inj in Heq. contradiction.
  - destruct Hshape as [->|(c & resp & Hx & Hd & ->)]; [left; reflexivity|].
    right. exists c, resp. split; [exact Hx|split].
    + apply length_imap.
    + intros i r Hr. rewrite list_lookup_imap, Hr. reflexivity.
Qed.

Lemma C6_record_ids_witness :
  exists batch,
    py_iter (PList (imap (fun i => with_id (make_id "interview" i))
                         Demo.three_records)) = Ok batch
    /\ (forall i qa, batch !! i = Some qa ->
          record_id qa =
          Some (PStr ("interview" +:+ "_" +:+ Py.str_nat (i + 1) +:+ ".md")))
    /\ map record_id batch
       = [Some (PStr "interview_1.md"); Some (PStr "interview_2.md");
          Some (PStr "interview_3.md")].
Proof.
  destruct (C6_record_ids Demo.host ["docs"; "interview.txt"] "key"
              "gemini-2.0-flash" Demo.world _ _ eq_refl)
    as (batch & Hiter & Hid & _).
  exists batch. split; [exact Hiter|split; [exact Hid|]].
  injection Hiter as <-. reflexivity.
Defined.

(** ** The state along a run *)

Lemma extract_with_gemini_parses h content api_key model_key w o w' rq :
  extract_with_gemini h content api_key model_key w = (o, w') ->
  calls w' = calls w ++ [rq] ->
  o = (text <~ generate_content h (calls w) rq ;; json_loads h text).
Proof.
  unfold extract_with_gemini. intros H Hcalls.
  assert (Hno : forall (o0 : outcome pyval), (o0, w) = (o, w') ->
            o = (text <~ generate_content h (calls w) rq ;; json_loads h text)).
  { intros o0 [= _ <-]. apply (f_equal length) in Hcalls.
    rewrite length_app in Hcalls. simpl in Hcalls. lia. }
  unfold bind at 1 in H. unfold lift at 1 in H.
  destruct (except_ImportError_exit _); [|eauto..].
  unfold bind at 1 in H. unfold lift at 1 in H.
  destruct (except_ImportError_exit _); [|eauto..].
  unfold bind at 1 in H. unfold reading at 1 in H.
  destruct (fs_read_text _ _) as [system_prompt| |]; [|eauto..].
  unfold bind at 1 in H. unfold reading at 1 in H.
  destruct (fs_read_text _ _) as [user_source| |]; [|eauto..].
  unfold bind at 1 in H. unfold lift at 1 in H.
  destruct (jinja_render _ _ _) as [user_prompt| |]; [|eauto..].
  unfold bind at 1 in H. unfold lift at 1 in H.
  destruct (model_config_of model_key) as [cfg| |]; [|eauto..].
  unfold bind at 1, call_service at 1 in H.
  match type of H with
  | context [generate_content h _ ?r] =>
      assert (Hrq : w' = {| fs := fs w; calls := calls w ++ [r] |})
  end.
  { destruct (generate_content _ _ _); unfold lift in H; congruence. }
  rewrite Hrq in Hcalls. simpl in Hcalls. apply app_inv_head in Hcalls.
  injection Hcalls as Hcalls. rewrite Hcalls in H.
  destruct (generate_content h _ rq); unfold lift in H; simpl; congruence.
Qed.

Lemma process_file_fs h file_path api_key model w o w' :
  process_file h file_path api_key model w = (o, w') -> fs w' = fs w.
Proof.
  unfold process_file.
  destruct (readers_get _ _) as [reader|] eqn:Hreader;
    [|intros [= _ <-]; reflexivity].
  unfold bind at 1. destruct (reader file_path w) as [oc w1] eqn:Hread.
  apply (readers_only_read _ _ _ _ _ _ _ Hreader) in Hread as ->.
  destruct oc as [content| |]; [|intros [= _ <-]; reflexivity..].
  destruct (negb _); [intros [= _ <-]; reflexivity|].
  unfold bind. destruct (extract_with_gemini _ _ _ _ _) as [ox w2] eqn:Hx.
  apply extract_with_gemini_calls in Hx as [Hfs _].
  destruct ox; unfold lift; intros [= _ <-]; exact Hfs.
Qed.

Lemma process_all_fs h files api_key model all_qa w o w' :
  process_all h files api_key model all_qa w = (o, w') -> fs w' = fs w.
Proof.
  revert all_qa w. induction files as [|f rest IH]; intros all_qa w; simpl.
  - intros [= _ <-]. reflexivity.
  - unfold bind at 1.
    destruct (process_file _ _ _ _ _) as [op w1] eqn:Hpf.
    apply process_file_fs in Hpf.
    destruct op as [qa| |]; [|intros [= _ <-]; exact Hpf..].
    unfold bind at 1, lift at 1.
    destruct (py_iter qa); [|intros [= _ <-]; exact Hpf..].
    intros H. apply IH in H. congruence.
Qed.

(** Processing a list of files in two parts. *)
Lemma process_all_app h pre post api_key model all_qa w :
  process_all h (pre ++ post) api_key model all_qa w =
  bind (process_all h pre api_key model all_qa)
       (fun acc => process_all h post api_key model acc) w.
Proof.
  revert all_qa w. induction pre as [|f pre IH]; intros all_qa w; simpl.
  - reflexivity.
  - unfold bind, lift.
    destruct (process_file _ _ _ _ _) as [[qa| |] w1]; try reflexivity.
    destruct (py_iter qa); try reflexivity.
    rewrite IH. reflexivity.
Qed.

(** The records gathered before a file are kept in front of its own. *)
Lemma process_all_acc h files api_key model all_qa w :
  process_all h files api_key model all_qa w =
  (match fst (process_all h files api_key model [] w) with
   | Ok new => Ok (all_qa ++ new)
   | Raise e => Raise e
   | Exit c => Exit c
   end, snd (process_all h files api_key model [] w)).
Proof.
  revert all_qa w. induction files as [|f rest IH]; intros all_qa w; simpl.
  - unfold ret. simpl. rewrite app_nil_r. reflexivity.
  - unfold bind, lift.
    destruct (process_file _ _ _ _ _) as [[qa| |] w1]; try reflexivity.
    destruct (py_iter qa) as [items| |]; try reflexivity.
    rewrite (IH (all_qa ++ items)), (IH ([] ++ items)). simpl.
    destruct (fst (process_all h rest api_key model [] w1)); try reflexivity.
    rewrite app_assoc. reflexivity.
Qed.

(** A file that raises ends the loop: the files after it are not
    processed. *)
Lemma process_all_raise h pre failed post api_key model all_qa acc w w1 e w2 :
  process_all h pre api_key model all_qa w = (Ok acc, w1) ->
  process_file h failed api_key model w1 = (Raise e, w2) ->
  process_all h (pre ++ failed :: post) api_key model all_qa w = (Raise e, w2).
Proof.
  intros Hpre Hfail. rewrite process_all_app. unfold bind at 1.
  rewrite Hpre. simpl. unfold bind at 1. rewrite Hfail. reflexivity.
Qed.

(** ** The run *)

(** [main_all_qa] once the model is one of the choices, a key is there and
    some file was found. *)
Lemma main_all_qa_eq h args w :
  is_Some (MODELS !! model args) ->
  Py.truthy_str (get_api_key h) = true ->
  collect_files h (fs w) (input args) <> [] ->
  main_all_qa h args w =
  bind (process_all h (collect_files h (fs w) (input args)) (get_api_key h)
          (model args) [])
       (handle_append h args) w.
Proof.
  intros Hmodel Hkey Hfiles. unfold main_all_qa, argparse_accepts.
  rewrite (bool_decide_eq_true_2 _ Hmodel).
  rewrite bool_decide_eq_false_2
    by (intros Hnil; apply Hfiles; rewrite Hnil; reflexivity).
  simpl.
  unfold bind at 1. unfold lift at 1, dict_getitem.
  destruct Hmodel as [cfg ->]. rewrite Hkey. simpl.
  unfold bind at 1. unfold reading at 1.
  rewrite (bool_decide_eq_false_2 _ Hfiles). reflexivity.
Qed.

(** C3, as the script has it: when the service call for one file fails,
    the exception leaves [main]: the run ends with it, the files after the
    failed one are not processed (the state is the one the failed call
    left), and nothing is written. *)
Theorem C3_service_failure_ends_run
    h args w pre failed post acc w1 reader content e w2 :
  is_Some (MODELS !! model args) ->
  Py.truthy_str (get_api_key h) = true ->
  collect_files h (fs w) (input args) = pre ++ failed :: post ->
  process_all h pre (get_api_key h) (model args) [] w = (Ok acc, w1) ->
  readers_get (Py.lower (path_suffix failed)) (READERS h) = Some reader ->
  reader failed w1 = (Ok content, w1) ->
  all_space content = false ->
  extract_with_gemini h content (get_api_key h) (model args) w1 = (Raise e, w2) ->
  main h args w = (Raise e, w2) /\ fs w2 = fs w.
Proof.
  intros Hmodel Hkey Hfiles Hpre Hreader Hread Hblank Hfail.
  assert (Hpf : process_file h failed (get_api_key h) (model args) w1
                = (Raise e, w2)).
  { rewrite (process_file_extracts _ _ _ _ _ _ _ Hreader Hread Hblank), Hfail.
    reflexivity. }
  split.
  - unfold main. unfold bind at 1. rewrite main_all_qa_eq; auto.
    + rewrite Hfiles. unfold bind at 1.
      rewrite (process_all_raise _ _ _ _ _ _ _ _ _ _ _ _ Hpre Hpf). reflexivity.
    + rewrite Hfiles. destruct pre; discriminate.
  - apply process_file_fs in Hpf. apply process_all_fs in Hpre. congruence.
Qed.

Lemma C3_service_failure_ends_run_witness :
  main Demo.host
    (Demo.args [["docs"; "teams.txt"]; ["docs"; "broken.txt"];
                ["docs"; "interview.txt"]] false) Demo.world
  = (Raise (ServiceError "503"),
     snd (process_all Demo.host [["docs"; "teams.txt"]; ["docs"; "broken.txt"]]
            "key" "gemini-2.0-flash" [] Demo.world)).
Proof.
  refine (proj1 (C3_service_failure_ends_run Demo.host
           (Demo.args [["docs"; "teams.txt"]; ["docs"; "broken.txt"];
                       ["docs"; "interview.txt"]] false)
           Demo.world [["docs"; "teams.txt"]] ["docs"; "broken.txt"]
           [["docs"; "interview.txt"]] _ _ read_txt "broken text"
           (ServiceError "503") _ _ eq_refl eq_refl eq_refl eq_refl eq_refl
           eq_refl eq_refl)).
  apply MODELS_keys. left. reflexivity.
Defined.

(** C3 as claimed fails: the service fails on the first of two files; the
    run does not go on to the second one, which alone yields three records,
    but ends with the exception, after one call and with no output written. *)
Lemma C3_run_does_not_continue :
  fst (main Demo.host
         (Demo.args [["docs"; "broken.txt"]; ["docs"; "interview.txt"]] false)
         Demo.world)
  = Raise (ServiceError "503")
  /\ length (calls (snd (main Demo.host
         (Demo.args [["docs"; "broken.txt"]; ["docs"; "interview.txt"]] false)
         Demo.world))) = 1
  /\ file_text (snd (main Demo.host
         (Demo.args [["docs"; "broken.txt"]; ["docs"; "interview.txt"]] false)
         Demo.world)) ["questions.json"] = None
  /\ fst (process_file Demo.host ["docs"; "interview.txt"] "key"
            "gemini-2.0-flash" Demo.world)
     = Ok (PList (imap (fun i => with_id (make_id "interview" i))
                       Demo.three_records)).
Proof. repeat split; vm_compute; reflexivity. Qed.

(** ** What is checked of a response *)

(** C1, as the script has it: the extractor returns what [json.loads]
    makes of the response text, so a text that is not JSON raises; of the
    parsed value only the stamping loop asks anything: an array whose
    elements are all objects is accepted whatever their fields ([category],
    [question] and [answer] are not looked at), and each element is stamped
    and returned for the aggregate; an empty string or object gives no
    record; any other value raises [TypeError]. *)
Theorem C1_response_check h file_path api_key model reader content w :
  readers_get (Py.lower (path_suffix file_path)) (READERS h) = Some reader ->
  reader file_path w = (Ok content, w) ->
  all_space content = false ->
  process_file h file_path api_key model w =
    (match fst (extract_with_gemini h content api_key model w) with
     | Ok (PList items) =>
         if forallb is_dict items
         then Ok (PList (imap (fun i => with_id (make_id (path_stem file_path) i))
                              items))
         else Raise TypeError
     | Ok (PStr EmptyString) => Ok (PStr EmptyString)
     | Ok (PDict []) => Ok (PDict [])
     | Ok _ => Raise TypeError
     | Raise e => Raise e
     | Exit c => Exit c
     end,
     snd (extract_with_gemini h content api_key model w))
  /\ forall rq,
       calls (snd (extract_with_gemini h content api_key model w))
       = calls w ++ [rq] ->
       fst (extract_with_gemini h content api_key model w)
       = (text <~ generate_content h (calls w) rq ;; json_loads h text).
Proof.
  intros Hreader Hread Hblank. split.
  - rewrite (process_file_extracts _ _ _ _ _ _ _ Hreader Hread Hblank).
    f_equal.
    destruct (fst (extract_with_gemini h content api_key model w))
      as [qa| |]; simpl; try reflexivity.
    rewrite stamp_spec. unfold stamped.
    destruct qa as [| | | |s|items|d]; try reflexivity.
  - intros rq Hcalls.
    apply (extract_with_gemini_parses h content api_key model w _ _ rq
             (surjective_pairing _) Hcalls).
Qed.

Lemma C1_response_check_witness :
  conforms (PList [Demo.no_answer]) = false
  /\ process_file Demo.host ["docs"; "short.txt"] "key" "gemini-2.0-flash"
       Demo.world
     = (Ok (PList [with_id "short_1.md" Demo.no_answer]),
        snd (extract_with_gemini Demo.host "short text" "key"
               "gemini-2.0-flash" Demo.world)).
Proof.
  split; [reflexivity|].
  exact (proj1 (C1_response_check Demo.host ["docs"; "short.txt"] "key"
                  "gemini-2.0-flash" read_txt "short text" Demo.world
                  eq_refl eq_refl eq_refl)).
Defined.

(** C1 as claimed fails: the response to [short.txt] is an array whose one
    element has no [answer]; it is not rejected, and the run writes the
    element, stamped, to the output. *)
Lemma C1_missing_answer_is_committed :
  (text <~ generate_content Demo.host []
             {| rq_api_key := "key"; rq_model_name := "gemini-2.0-flash";
                rq_system_instruction := Demo.system_txt;
                rq_generation_config :=
                  {| gc_temperature := 0.7;
                     gc_response_mime_type := "application/json";
                     gc_response_schema := response_schema |};
                rq_user_prompt := "Document: short text" |} ;;
   json_loads Demo.host text) = Ok (PList [Demo.no_answer])
  /\ conforms (PList [Demo.no_answer]) = false
  /\ fst (main Demo.host (Demo.args [["docs"; "short.txt"]] false) Demo.world)
     = Ok tt
  /\ file_text
       (snd (main Demo.host (Demo.args [["docs"; "short.txt"]] false) Demo.world))
       ["questions.json"]
     = Some (json_dumps Demo.host
               (PList [PDict [("category", PStr "Personal");
                              ("question", PStr "Tell me about yourself");
                              ("id", PStr "short_1.md")]])).
Proof. repeat split; vm_compute; reflexivity. Qed.

(** C2: the schema sent with the request types [category] as any string,
    so it accepts a record whose category is none of [CategoryType], which
    the class [InterviewQA] excludes; the run commits that record. *)
Theorem C2_category_not_restricted :
  schema_accepts response_schema (PList [Demo.banana]) = true
  /\ InterviewQA_valid Demo.banana = false
  /\ category_in_closed_set Demo.banana = false
  /\ (text <~ generate_content Demo.host []
               {| rq_api_key := "key"; rq_model_name := "gemini-2.0-flash";
                  rq_system_instruction := Demo.system_txt;
                  rq_generation_config :=
                    {| gc_temperature := 0.7;
                       gc_response_mime_type := "application/json";
                       gc_response_schema := response_schema |};
                  rq_user_prompt := "Document: fruit text" |} ;;
       json_loads Demo.host text) = Ok (PList [Demo.banana])
  /\ fst (main Demo.host (Demo.args [["docs"; "fruit.md"]] false) Demo.world)
     = Ok tt
  /\ file_text
       (snd (main Demo.host (Demo.args [["docs"; "fruit.md"]] false) Demo.world))
       ["questions.json"]
     = Some (json_dumps Demo.host (PList [with_id "fruit_1.md" Demo.banana])).
Proof. repeat split; vm_compute; reflexivity. Qed.

(** ** Writing the output *)

Lemma fs_entry_replace_eq fs p n m :
  fs_entry fs p = Some m -> fs_entry (fs_replace p n fs) p = Some n.
Proof.
  induction fs as [|[q k] fs IH]; simpl; [discriminate|].
  destruct (decide (q = p)) as [->|Hne]; simpl.
  - intros _. rewrite decide_True by reflexivity. reflexivity.
  - intros H. rewrite decide_False by exact Hne. auto.
Qed.

Lemma fs_entry_replace_ne fs p q n :
  q <> p -> fs_entry (fs_replace p n fs) q = fs_entry fs q.
Proof.
  intros Hqp. induction fs as [|[r k] fs IH]; simpl; [reflexivity|].
  destruct (decide (r = p)) as [->|Hne]; simpl.
  - rewrite !decide_False by congruence. reflexivity.
  - rewrite IH. reflexivity.
Qed.

Lemma fs_entry_app fs p q n :
  fs_entry (fs ++ [(p, n)]) q =
  match fs_entry fs q with
  | Some m => Some m
  | None => if decide (p = q) then Some n else None
  end.
Proof.
  induction fs as [|[r k] fs IH]; simpl; [reflexivity|].
  destruct (decide (r = q)); [reflexivity|exact IH].
Qed.

Lemma fs_replace_paths fs p n : map fst (fs_replace p n fs) = map fst fs.
Proof.
  induction fs as [|[q k] fs IH]; simpl; [reflexivity|].
  destruct (decide (q = p)); simpl; [reflexivity|]. rewrite IH. reflexivity.
Qed.

(** After a successful write the file holds the text written. *)
Lemma fs_write_text_written fs p text fs' :
  fs_write_text fs p text = Ok fs' ->
  fs_lookup fs' p = Some (File (Text text)).
Proof.
  unfold fs_write_text, fs_lookup.
  destruct (decide (p = [])) as [->|Hp]; [discriminate|].
  destruct (fs_entry fs p) as [[c|]|] eqn:He; [|discriminate|].
  - intros [= <-]. eapply fs_entry_replace_eq, He.
  - intros H.
    assert (Hfs' : fs' = fs ++ [(p, File (Text text))]).
    { destruct (decide (path_parent p = [])); [congruence|].
      destruct (fs_entry fs (path_parent p)) as [[c|]|]; congruence. }
    rewrite Hfs', fs_entry_app, He. rewrite decide_True by reflexivity.
    reflexivity.
Qed.

(** A write leaves the other paths as they were. *)
Lemma fs_write_text_other fs p text fs' q :
  fs_write_text fs p text = Ok fs' -> q <> p ->
  fs_lookup fs' q = fs_lookup fs q.
Proof.
  unfold fs_write_text, fs_lookup. intros H Hq.
  destruct (decide (q = [])); [reflexivity|].
  destruct (decide (p = [])) as [->|Hp]; [discriminate|].
  destruct (fs_entry fs p) as [[c|]|] eqn:He; [|discriminate|].
  - injection H as <-. apply fs_entry_replace_ne, Hq.
  - assert (Hfs' : fs' = fs ++ [(p, File (Text text))]).
    { destruct (decide (path_parent p = [])); [congruence|].
      destruct (fs_entry fs (path_parent p)) as [[c'|]|]; congruence. }
    rewrite Hfs', fs_entry_app. rewrite decide_False by congruence.
    destruct (fs_entry fs q); reflexivity.
Qed.

(** Whether a write succeeds does not depend on the text. *)
Lemma fs_write_text_succeeds fs p text fs' text' :
  fs_write_text fs p text = Ok fs' ->
  exists fs'', fs_write_text fs p text' = Ok fs''.
Proof.
  unfold fs_write_text.
  destruct (fs_lookup fs p) as [[c|]|]; [eauto|discriminate|].
  destruct (fs_lookup fs (path_parent p)) as [[|]|]; try discriminate; eauto.
Qed.

Lemma write_text_inv p text w o w' :
  write_text p text w = (Ok o, w') ->
  calls w' = calls w /\ fs_write_text (fs w) p text = Ok (fs w').
Proof.
  unfold write_text.
  destruct (fs_write_text _ _ _); [|discriminate..].
  intros [= _ <-]. auto.
Qed.

Lemma handle_append_world h args all_qa w o w' :
  handle_append h args all_qa w = (o, w') -> w' = w.
Proof.
  unfold handle_append, bind, reading, lift, ret.
  destruct (append args && exists_ (fs w) (output args)).
  - destruct (fs_read_text _ _); [|intros [= _ <-]; reflexivity..].
    destruct (json_loads h _); intros [= _ <-]; reflexivity.
  - intros [= _ <-]. reflexivity.
Qed.

(** Without a prior output to read, the block returns the new records. *)
Lemma handle_append_none h args all_qa w :
  append args && exists_ (fs w) (output args) = false ->
  handle_append h args all_qa w = (Ok all_qa, w).
Proof.
  intros H. unfold handle_append, bind, reading, ret. rewrite H. reflexivity.
Qed.

(** C10: with append mode asked for and no file at the output path, the
    run is the run without append mode: nothing is read from the output
    path, no failure comes from its absence, and a run that ends well has
    written the newly extracted records and nothing else. *)
Theorem C10_append_without_prior_output h args w :
  append args = true ->
  exists_ (fs w) (output args) = false ->
  main h args w
  = main h {| input := input args; output := output args;
              model := model args; append := false |} w
  /\ forall w',
       main h args w = (Ok tt, w') ->
       exists all_qa w1,
         process_all h (collect_files h (fs w) (input args)) (get_api_key h)
           (model args) [] w = (Ok all_qa, w1)
         /\ file_text w' (output args) = Some (json_dumps h (PList all_qa)).
Proof.
  intros Happend Hmissing.
  assert (Hall : forall a,
    main_all_qa h a w =
    if negb (argparse_accepts a) then (Exit 2, w)
    else if negb (Py.truthy_str (get_api_key h)) then (Exit 1, w)
    else if bool_decide (collect_files h (fs w) (input a) = []) then (Exit 1, w)
    else bind (process_all h (collect_files h (fs w) (input a)) (get_api_key h)
                 (model a) []) (handle_append h a) w).
  { intros a. unfold main_all_qa.
    destruct (argparse_accepts a) eqn:Hm; [|reflexivity].
    apply andb_true_iff in Hm as [_ Hm].
    apply bool_decide_eq_true_1 in Hm as [cfg Hcfg]. simpl.
    unfold bind at 1. unfold lift at 1, dict_getitem. rewrite Hcfg.
    destruct (Py.truthy_str (get_api_key h)); [|reflexivity]. simpl.
    unfold bind at 1. unfold reading at 1.
    destruct (bool_decide _); reflexivity. }
  assert (Hgather : forall a,
    input a = input args -> model a = model args -> output a = output args ->
    main_all_qa h a w =
    if negb (argparse_accepts args) then (Exit 2, w)
    else if negb (Py.truthy_str (get_api_key h)) then (Exit 1, w)
    else if bool_decide (collect_files h (fs w) (input args) = []) then (Exit 1, w)
    else process_all h (collect_files h (fs w) (input args)) (get_api_key h)
           (model args) [] w).
  { intros a Hi Hm Ho. rewrite Hall. unfold argparse_accepts. rewrite Hi, Hm.
    repeat (destruct (negb _); [reflexivity|]).
    destruct (bool_decide _); [reflexivity|].
    unfold bind. destruct (process_all _ _ _ _ _ _) as [[all_qa| |] w1] eqn:Hp;
      try reflexivity.
    apply handle_append_none. apply process_all_fs in Hp.
    rewrite Ho, Hp, Hmissing. apply andb_false_r. }
  split.
  - unfold main, bind. rewrite !Hgather by reflexivity. reflexivity.
  - intros w' Hw. unfold main in Hw. unfold bind at 1 in Hw.
    rewrite Hgather in Hw by reflexivity.
    destruct (negb (argparse_accepts _)); [discriminate Hw|].
    destruct (negb (Py.truthy_str _)); [discriminate Hw|].
    destruct (bool_decide (collect_files _ _ _ = [])); [discriminate Hw|].
    destruct (process_all _ _ _ _ _ _) as [[all_qa| |] w1] eqn:Hp;
      [|discriminate Hw..].
    exists all_qa, w1. split; [reflexivity|].
    apply write_text_inv in Hw as [_ Hw].
    apply fs_write_text_written in Hw. unfold file_text. rewrite Hw.
    reflexivity.
Qed.

Lemma C10_append_without_prior_output_witness :
  exists_ (fs Demo.world) ["questions.json"] = false
  /\ main Demo.host (Demo.args [["docs"; "interview.txt"]] true) Demo.world
     = main Demo.host (Demo.args [["docs"; "interview.txt"]] false) Demo.world
  /\ fst (main Demo.host (Demo.args [["docs"; "interview.txt"]] true) Demo.world)
     = Ok tt.
Proof.
  split; [reflexivity|split].
  - exact (proj1 (C10_append_without_prior_output Demo.host
                    (Demo.args [["docs"; "interview.txt"]] true) Demo.world
                    eq_refl eq_refl)).
  - reflexivity.
Defined.

(** ** Collecting the files *)

Lemma fold_left_extend {A B} (f : list B -> A -> list B) (g : A -> list B) l acc :
  (forall acc x, f acc x = acc ++ g x) ->
  fold_left f l acc = acc ++ flat_map g l.
Proof.
  intros Hf. revert acc. induction l as [|x l IH]; intros acc; simpl.
  - rewrite app_nil_r. reflexivity.
  - rewrite IH, Hf, app_assoc. reflexivity.
Qed.

(** The files one input path stands for. *)
Lemma collect_files_flat_map h fs inputs :
  collect_files h fs inputs =
  flat_map (fun path =>
              if is_dir fs path
              then flat_map (glob fs path) (map fst (READERS h))
              else if exists_ fs path then [path] else [])
           inputs.
Proof.
  unfold collect_files.
  rewrite <- (app_nil_l (flat_map _ inputs)).
  apply fold_left_extend. intros files path.
  destruct (is_dir fs path); [apply fold_left_extend; reflexivity|].
  destruct (exists_ fs path); [reflexivity|].
  rewrite app_nil_r. reflexivity.
Qed.

Lemma collect_files_app h fs inputs1 inputs2 :
  collect_files h fs (inputs1 ++ inputs2) =
  collect_files h fs inputs1 ++ collect_files h fs inputs2.
Proof. rewrite !collect_files_flat_map. apply flat_map_app. Qed.

Lemma glob_after_write fs p text fs' d ext :
  fs_write_text fs p text = Ok fs' ->
  p ∉ glob fs' d ext ->
  glob fs' d ext = glob fs d ext.
Proof.
  unfold fs_write_text. intros H Hp.
  destruct (fs_lookup fs p) as [[c|]|]; [|discriminate|].
  - injection H as <-. unfold glob. rewrite fs_replace_paths. reflexivity.
  - assert (Hfs' : fs' = fs ++ [(p, File (Text text))]).
    { destruct (fs_lookup fs (path_parent p)) as [[c|]|]; congruence. }
    subst fs'. clear H. unfold glob in *.
    rewrite map_app, filter_app in Hp |- *.
    change (map fst [(p, File (Text text))]) with [p] in Hp |- *.
    rewrite filter_cons, filter_nil in Hp |- *.
    destruct (decide _); [|rewrite app_nil_r; reflexivity].
    exfalso. apply Hp. apply elem_of_app. right. apply list_elem_of_singleton.
    reflexivity.
Qed.

(** A write to a path that the collection does not pick up leaves the
    collection as it was. *)
Lemma collect_files_after_write h fs p text fs' inputs :
  fs_write_text fs p text = Ok fs' ->
  p ∉ collect_files h fs' inputs ->
  collect_files h fs' inputs = collect_files h fs inputs.
Proof.
  intros Hw. rewrite !collect_files_flat_map.
  induction inputs as [|path inputs IH]; cbn [flat_map]; [reflexivity|].
  intros Hp. rewrite not_elem_of_app in Hp. destruct Hp as [Hhere Hrest].
  rewrite (IH Hrest). f_equal.
  destruct (decide (path = p)) as [->|Hne].
  - exfalso. apply Hhere.
    unfold is_dir, exists_. rewrite (fs_write_text_written _ _ _ _ Hw).
    apply list_elem_of_singleton. reflexivity.
  - unfold is_dir, exists_ in *.
    rewrite (fs_write_text_other _ _ _ _ _ Hw Hne) in *.
    destruct (fs_lookup fs path) as [[c|]|]; try reflexivity.
    clear IH Hrest. induction (map fst (READERS h)) as [|ext exts IHe];
      cbn [flat_map] in *; [reflexivity|].
    rewrite not_elem_of_app in Hhere. destruct Hhere as [H1 H2].
    rewrite (glob_after_write _ _ _ _ _ _ Hw H1), (IHe H2). reflexivity.
Qed.

(** ** What a file's processing depends on *)

Lemma reader_agree h suffix reader path w1 w :
  readers_get suffix (READERS h) = Some reader ->
  fs_lookup (fs w1) path = fs_lookup (fs w) path ->
  fst (reader path w1) = fst (reader path w).
Proof.
  intros Hr Hl.
  destruct (readers_get_cases _ _ _ Hr) as [->|[->|[->|[->| ->]]]];
    unfold read_txt, read_md, read_docx, read_pdf, read_xlsx, reading,
      fs_read_text, fs_docx, fs_pdf, fs_xlsx; simpl; rewrite Hl; reflexivity.
Qed.

Lemma extract_with_gemini_agree h content api_key model_key w1 w :
  let prompts_dir := path_join (script_dir h) "prompts" in
  answers_by_request h ->
  fs_lookup (fs w1) (path_join prompts_dir "system.txt")
  = fs_lookup (fs w) (path_join prompts_dir "system.txt") ->
  fs_lookup (fs w1) (path_join prompts_dir "user.txt")
  = fs_lookup (fs w) (path_join prompts_dir "user.txt") ->
  fst (extract_with_gemini h content api_key model_key w1)
  = fst (extract_with_gemini h content api_key model_key w).
Proof.
  intros prompts_dir Hdet Hsys Husr. subst prompts_dir.
  rewrite !extract_with_gemini_eq. cbv zeta. unfold fs_read_text.
  rewrite Hsys, Husr.
  destruct (negb (installed h "google.generativeai")); [reflexivity|].
  destruct (negb (installed h "jinja2")); [reflexivity|].
  destruct (fs_lookup (fs w) _) as [[[system_prompt| | |]|]|]; try reflexivity.
  destruct (fs_lookup (fs w) _) as [[[user_source| | |]|]|]; try reflexivity.
  simpl.
  destruct (jinja_render h user_source content); try reflexivity.
  simpl. rewrite (Hdet (calls w1) (calls w)). reflexivity.
Qed.

Lemma process_file_agree h file_path api_key model w1 w :
  let prompts_dir := path_join (script_dir h) "prompts" in
  answers_by_request h ->
  fs_lookup (fs w1) file_path = fs_lookup (fs w) file_path ->
  fs_lookup (fs w1) (path_join prompts_dir "system.txt")
  = fs_lookup (fs w) (path_join prompts_dir "system.txt") ->
  fs_lookup (fs w1) (path_join prompts_dir "user.txt")
  = fs_lookup (fs w) (path_join prompts_dir "user.txt") ->
  fst (process_file h file_path api_key model w1)
  = fst (process_file h file_path api_key model w).
Proof.
  intros prompts_dir Hdet Hfile Hsys Husr. unfold process_file.
  destruct (readers_get _ _) as [reader|] eqn:Hreader; [|reflexivity].
  pose proof (reader_agree h _ _ file_path w1 w Hreader Hfile) as Hread.
  unfold bind at 1 3.
  destruct (reader file_path w1) as [o1 w1'] eqn:E1.
  destruct (reader file_path w) as [o0 w'] eqn:E0.
  apply (readers_only_read _ _ _ _ _ _ _ Hreader) in E1 as ->.
  apply (readers_only_read _ _ _ _ _ _ _ Hreader) in E0 as ->.
  simpl in Hread. subst o1.
  destruct o0 as [content| |]; [|reflexivity..].
  destruct (negb _); [reflexivity|].
  pose proof (extract_with_gemini_agree h content api_key model w1 w
                Hdet Hsys Husr) as Ho.
  unfold bind.
  destruct (extract_with_gemini h content api_key model w1) as [ox1 wx1].
  destruct (extract_with_gemini h content api_key model w) as [ox wx].
  simpl in Ho. subst ox1.
  destruct ox; reflexivity.
Qed.

Lemma process_all_agree h files api_key model all_qa w1 w :
  let prompts_dir := path_join (script_dir h) "prompts" in
  answers_by_request h ->
  (forall f, f ∈ files -> fs_lookup (fs w1) f = fs_lookup (fs w) f) ->
  fs_lookup (fs w1) (path_join prompts_dir "system.txt")
  = fs_lookup (fs w) (path_join prompts_dir "system.txt") ->
  fs_lookup (fs w1) (path_join prompts_dir "user.txt")
  = fs_lookup (fs w) (path_join prompts_dir "user.txt") ->
  fst (process_all h files api_key model all_qa w1)
  = fst (process_all h files api_key model all_qa w).
Proof.
  intros prompts_dir Hdet. subst prompts_dir.
  revert all_qa w1 w. induction files as [|f rest IH];
    intros all_qa w1 w Hfiles Hsys Husr; simpl; [reflexivity|].
  pose proof (process_file_agree h f api_key model w1 w Hdet
                (Hfiles f (list_elem_of_here _ _)) Hsys Husr) as Ho.
  unfold bind at 1 3.
  destruct (process_file h f api_key model w1) as [o1 w1'] eqn:E1.
  destruct (process_file h f api_key model w) as [o0 w'] eqn:E0.
  apply process_file_fs in E1, E0. simpl in Ho. subst o1.
  destruct o0 as [qa| |]; [|reflexivity..].
  unfold bind, lift. destruct (py_iter qa); [|reflexivity..].
  apply IH; rewrite ?E1, ?E0; auto.
  intros f' Hf'. apply Hfiles. right. exact Hf'.
Qed.

(** ** Append mode *)

(** The block as a function of the file system it finds. *)
Lemma handle_append_eq h args all_qa w :
  handle_append h args all_qa w =
  (if append args && exists_ (fs w) (output args)
   then text <~ fs_read_text (fs w) (output args) ;;
        existing <~ json_loads h text ;;
        py_add_list existing all_qa
   else Ok all_qa, w).
Proof.
  unfold handle_append, bind, reading, lift, ret. cbv beta iota.
  destruct (append args && exists_ (fs w) (output args)); [|reflexivity].
  destruct (fs_read_text (fs w) (output args)); try reflexivity. simpl.
  destruct (json_loads h _); reflexivity.
Qed.

(** What the records that come with a prior output are put behind stays
    in front when more records are extracted. *)
Lemma handle_append_more h args args' all_qa w agg w' more w2 :
  handle_append h args all_qa w = (Ok agg, w') ->
  output args' = output args ->
  append args' = append args ->
  fs w2 = fs w ->
  handle_append h args' (all_qa ++ more) w2 = (Ok (agg ++ more), w2).
Proof.
  rewrite !handle_append_eq. intros H -> -> Hfs. rewrite Hfs.
  destruct (append args && exists_ (fs w) (output args)).
  - destruct (fs_read_text (fs w) (output args)); [|discriminate..].
    simpl in *. destruct (json_loads h _) as [existing| |]; [|discriminate..].
    simpl in *. destruct existing; try discriminate.
    unfold py_add_list in *. injection H as <- _.
    rewrite app_assoc. reflexivity.
  - injection H as <- _. reflexivity.
Qed.

(** In append mode, with a prior output that reads as a list, the prior
    records come first, as they were read. *)
Lemma handle_append_prior h args all_qa w text prior :
  append args = true ->
  fs_lookup (fs w) (output args) = Some (File (Text text)) ->
  json_loads h text = Ok (PList prior) ->
  handle_append h args all_qa w = (Ok (prior ++ all_qa), w).
Proof.
  intros Happend Hfile Hloads. rewrite handle_append_eq.
  unfold exists_, fs_read_text. rewrite Happend, Hfile. simpl.
  rewrite Hloads. reflexivity.
Qed.

Lemma main_inv h args w w' :
  main h args w = (Ok tt, w') ->
  exists all_qa wa,
    main_all_qa h args w = (Ok all_qa, wa)
    /\ write_text (output args) (json_dumps h (PList all_qa)) wa = (Ok tt, w').
Proof.
  unfold main, bind.
  destruct (main_all_qa h args w) as [[all_qa| |] wa]; [|discriminate..].
  eauto.
Qed.

Lemma main_all_qa_inv h args w all_qa wa :
  main_all_qa h args w = (Ok all_qa, wa) ->
  is_Some (MODELS !! model args)
  /\ Py.truthy_str (get_api_key h) = true
  /\ collect_files h (fs w) (input args) <> []
  /\ exists new,
       process_all h (collect_files h (fs w) (input args)) (get_api_key h)
         (model args) [] w = (Ok new, wa)
       /\ handle_append h args new wa = (Ok all_qa, wa).
Proof.
  unfold main_all_qa.
  destruct (argparse_accepts args) eqn:Hm; [|discriminate].
  apply andb_true_iff in Hm as [_ Hm].
  apply bool_decide_eq_true_1 in Hm. destruct Hm as [cfg Hcfg]. simpl.
  unfold bind at 1. unfold lift at 1, dict_getitem. rewrite Hcfg.
  destruct (Py.truthy_str (get_api_key h)); [|discriminate]. simpl.
  unfold bind at 1. unfold reading at 1.
  destruct (bool_decide (collect_files h (fs w) (input args) = [])) eqn:Hf;
    [discriminate|].
  apply bool_decide_eq_false_1 in Hf.
  unfold bind.
  destruct (process_all _ _ _ _ _ _) as [[new| |] wb] eqn:Hp; [|discriminate..].
  intros Ha. pose proof (handle_append_world _ _ _ _ _ _ Ha) as ->.
  repeat split; eauto.
Qed.

Lemma write_text_eq p text w :
  write_text p text w =
  match fs_write_text (fs w) p text with
  | Ok fs' => (Ok tt, {| fs := fs'; calls := calls w |})
  | Raise e => (Raise e, w)
  | Exit c => (Exit c, w)
  end.
Proof. reflexivity. Qed.

(** C4, as the script has it: a run over the files [ab] followed by a run
    in append mode over the files [c] leaves the same output as one run
    over [ab ++ c], when the service gives equal answers to equal requests
    whatever was asked before, the two runs end well, the output of the
    first run reads back as the list written, and the output file is
    neither picked up as an input by the second run nor one of the prompt
    files: the second run reads the records the first one wrote and puts
    them, as they are, before the records it extracts itself.  The second
    run and the single run are processes of their own: each starts from
    any state of the service, on the files left to it. *)
Theorem C4_append_is_associative h ab c out m b w0 agg1 wa w1 w1' w2 w0' :
  let args1 := {| input := ab; output := out; model := m; append := b |} in
  let args2 := {| input := c; output := out; model := m; append := true |} in
  let args3 := {| input := ab ++ c; output := out; model := m; append := b |} in
  let prompts_dir := path_join (script_dir h) "prompts" in
  answers_by_request h ->
  main_all_qa h args1 w0 = (Ok agg1, wa) ->
  main h args1 w0 = (Ok tt, w1) ->
  json_loads h (json_dumps h (PList agg1)) = Ok (PList agg1) ->
  fs w1' = fs w1 ->
  main h args2 w1' = (Ok tt, w2) ->
  out ∉ collect_files h (fs w1) c ->
  out <> path_join prompts_dir "system.txt" ->
  out <> path_join prompts_dir "user.txt" ->
  fs w0' = fs w0 ->
  exists new_c wc w3,
    process_all h (collect_files h (fs w1) c) (get_api_key h) m [] w1'
    = (Ok new_c, wc)
    /\ main_all_qa h args2 w1' = (Ok (agg1 ++ new_c), wc)
    /\ file_text w2 out = Some (json_dumps h (PList (agg1 ++ new_c)))
    /\ main h args3 w0' = (Ok tt, w3)
    /\ file_text w3 out = file_text w2 out.
Proof.
  intros args1 args2 args3 prompts_dir Hdet HA H1 Hround Hfs1 H2 Hout Hsys Husr
    Hfs0.
  subst prompts_dir.
  (* the first run *)
  apply main_inv in H1 as (agg1' & wa' & HA' & Hw1).
  rewrite HA in HA'. injection HA' as <- <-.
  pose proof HA as HA1.
  apply main_all_qa_inv in HA1 as (Hmodel & Hkey & Hfab & new_ab & Hpab & Happ1).
  simpl in Hmodel, Hfab, Hpab.
  pose proof (process_all_fs _ _ _ _ _ _ _ _ Hpab) as Hfsa.
  apply write_text_inv in Hw1 as [Hcalls1 Hwrite1]. simpl in Hwrite1.
  pose proof (fs_write_text_written _ _ _ _ Hwrite1) as Hfile1.
  (* the second run *)
  apply main_inv in H2 as (agg2 & wc & HA2 & Hw2).
  pose proof HA2 as HA2'.
  apply main_all_qa_inv in HA2' as (_ & _ & Hfc & new_c & Hpc & Happ2).
  simpl in Hfc, Hpc. rewrite Hfs1 in Hfc, Hpc.
  pose proof (process_all_fs _ _ _ _ _ _ _ _ Hpc) as Hfsc.
  assert (Hagg2 : agg2 = agg1 ++ new_c).
  { rewrite (handle_append_prior h args2 new_c wc
               (json_dumps h (PList agg1)) agg1) in Happ2;
      [congruence|reflexivity| |exact Hround].
    simpl. rewrite Hfsc, Hfs1. exact Hfile1. }
  subst agg2.
  apply write_text_inv in Hw2 as [Hcalls2 Hwrite2]. simpl in Hwrite2.
  pose proof (fs_write_text_written _ _ _ _ Hwrite2) as Hfile2.
  (* the single run: the files of [ab] *)
  assert (Hcollect : collect_files h (fs w0') (ab ++ c)
                     = collect_files h (fs w0) ab ++ collect_files h (fs w1) c).
  { rewrite Hfs0, collect_files_app. f_equal. rewrite <- Hfsa. symmetry.
    eapply collect_files_after_write; [exact Hwrite1|exact Hout]. }
  pose proof (process_all_agree h (collect_files h (fs w0) ab) (get_api_key h)
                m [] w0' w0 Hdet) as Hab.
  cbv zeta in Hab. rewrite Hfs0 in Hab.
  specialize (Hab (fun _ _ => eq_refl) eq_refl eq_refl).
  rewrite Hpab in Hab. simpl in Hab.
  destruct (process_all h (collect_files h (fs w0) ab) (get_api_key h) m [] w0')
    as [oab wab] eqn:Hpab'.
  simpl in Hab. subst oab.
  pose proof (process_all_fs _ _ _ _ _ _ _ _ Hpab') as Hfsab.
  (* the single run: the files of [c] *)
  assert (Hne : forall f, f ∈ collect_files h (fs w1) c -> f <> out).
  { intros f Hf ->. contradiction. }
  assert (Hsame : forall p, p <> out ->
            fs_lookup (fs wab) p = fs_lookup (fs w1') p).
  { intros p Hp. rewrite Hfsab, Hfs0, <- Hfsa, Hfs1. symmetry.
    eapply fs_write_text_other; [exact Hwrite1|exact Hp]. }
  pose proof (process_all_agree h (collect_files h (fs w1) c) (get_api_key h)
                m [] wab w1' Hdet) as Hc.
  cbv zeta in Hc.
  specialize (Hc (fun f Hf => Hsame f (Hne f Hf))
                 (Hsame _ (fun E => Hsys (eq_sym E)))
                 (Hsame _ (fun E => Husr (eq_sym E)))).
  rewrite Hpc in Hc. simpl in Hc.
  destruct (process_all h (collect_files h (fs w1) c) (get_api_key h) m [] wab)
    as [oc3 w3'] eqn:Hpc3.
  simpl in Hc. subst oc3.
  pose proof (process_all_fs _ _ _ _ _ _ _ _ Hpc3) as Hfs3.
  assert (Hall3 : main_all_qa h args3 w0' = (Ok (agg1 ++ new_c), w3')).
  { rewrite main_all_qa_eq; [|exact Hmodel|exact Hkey|].
    - simpl. rewrite Hcollect. unfold bind at 1. rewrite process_all_app.
      unfold bind at 1. rewrite Hpab'.
      rewrite process_all_acc, Hpc3. simpl.
      eapply handle_append_more; [exact Happ1|reflexivity..|].
      rewrite Hfs3, Hfsab, Hfs0, Hfsa. reflexivity.
    - simpl. rewrite Hcollect. intros Hnil.
      apply app_eq_nil in Hnil as [Hnil _]. contradiction. }
  assert (Hfs3' : fs w3' = fs wa).
  { rewrite Hfs3, Hfsab, Hfs0, Hfsa. reflexivity. }
  destruct (fs_write_text_succeeds _ _ _ _
              (json_dumps h (PList (agg1 ++ new_c))) Hwrite1) as [fs3 Hwrite3].
  exists new_c, wc, {| fs := fs3; calls := calls w3' |}.
  split; [exact Hpc|].
  split; [exact HA2|].
  split; [unfold file_text; rewrite Hfile2; reflexivity|].
  split.
  - unfold main, bind. rewrite Hall3. simpl. rewrite write_text_eq.
    rewrite Hfs3', Hwrite3. reflexivity.
  - unfold file_text. simpl.
    rewrite (fs_write_text_written _ _ _ _ Hwrite3), Hfile2. reflexivity.
Qed.

Lemma C4_append_is_associative_witness :
  fst (main Demo.host (Demo.args [["docs"; "interview.txt"]; ["docs"; "ethics.md"]] false)
         Demo.world) = Ok tt
  /\ file_text
       (snd (main Demo.host
               (Demo.args [["docs"; "interview.txt"]; ["docs"; "ethics.md"];
                           ["docs"; "teams.txt"]] false)
               Demo.world)) ["questions.json"]
     = file_text
         (snd (main Demo.host (Demo.args [["docs"; "teams.txt"]] true)
                 {| fs := fs (snd (main Demo.host
                                     (Demo.args [["docs"; "interview.txt"];
                                                 ["docs"; "ethics.md"]] false)
                                     Demo.world));
                    calls := [] |})) ["questions.json"].
Proof.
  split; [vm_compute; reflexivity|].
  pose (args1 := Demo.args [["docs"; "interview.txt"]; ["docs"; "ethics.md"]] false).
  pose (agg1 := match fst (main_all_qa Demo.host args1 Demo.world) with
                | Ok a => a
                | _ => []
                end).
  pose (wa := snd (main_all_qa Demo.host args1 Demo.world)).
  pose (w1 := snd (main Demo.host args1 Demo.world)).
  pose (w1' := {| fs := fs w1; calls := [] |}).
  pose (w2 := snd (main Demo.host (Demo.args [["docs"; "teams.txt"]] true) w1')).
  destruct (C4_append_is_associative Demo.host
              [["docs"; "interview.txt"]; ["docs"; "ethics.md"]]
              [["docs"; "teams.txt"]] ["questions.json"] "gemini-2.0-flash"
              false Demo.world agg1 wa w1 w1' w2 Demo.world)
    as (new_c & wc & w3 & _ & _ & _ & Hmain3 & Hfile).
  - intros history history' rq. reflexivity.
  - vm_compute; reflexivity.
  - vm_compute; reflexivity.
  - vm_compute; reflexivity.
  - reflexivity.
  - vm_compute; reflexivity.
  - apply (bool_decide_eq_false_1 _). vm_compute; reflexivity.
  - discriminate.
  - discriminate.
  - reflexivity.
  - replace (main Demo.host
               (Demo.args [["docs"; "interview.txt"]; ["docs"; "ethics.md"];
                           ["docs"; "teams.txt"]] false) Demo.world)
      with (Ok tt, w3) by (symmetry; exact Hmain3).
    exact Hfile.
Defined.

(** C4 as claimed fails when the output lies where the second run looks
    for its inputs: a run over [ethics.md] writes [notes/all.md]; the run in
    append mode over the directory [notes] then takes that file for a
    document too and adds what the service extracts from it, which the one
    run over [ethics.md] and [notes] does not. *)
Lemma C4_output_among_inputs :
  let run1 := main Demo.host (Demo.args_into_notes [["docs"; "ethics.md"]] false)
                Demo.world in
  let run2 := main Demo.host (Demo.args_into_notes [["notes"]] true) (snd run1) in
  let run3 := main Demo.host
                (Demo.args_into_notes [["docs"; "ethics.md"]; ["notes"]] false)
                Demo.world in
  fst run1 = Ok tt /\ fst run2 = Ok tt /\ fst run3 = Ok tt
  /\ collect_files Demo.host (fs (snd run1)) [["notes"]]
     = [["notes"; "teams.txt"]; ["notes"; "all.md"]]
  /\ file_text (snd run2) ["notes"; "all.md"]
     = Some (json_dumps Demo.host
               (PList [with_id "ethics_1.md" Demo.ethics_record;
                       with_id "teams_1.md"
                         (Demo.qa "Teamwork" "Do you like teams?" "Yes.");
                       with_id "all_1.md" Demo.ethics_record]))
  /\ file_text (snd run3) ["notes"; "all.md"]
     = Some (json_dumps Demo.host
               (PList [with_id "ethics_1.md" Demo.ethics_record;
                       with_id "teams_1.md"
                         (Demo.qa "Teamwork" "Do you like teams?" "Yes.")]))
  /\ file_text (snd run2) ["notes"; "all.md"]
     <> file_text (snd run3) ["notes"; "all.md"].
Proof.
  cbv zeta. repeat split; try (vm_compute; reflexivity).
  intros Heq. vm_compute in Heq. discriminate Heq.
Qed.


(** The proviso on the service is needed: with a service that answers
    the same request differently after another call, the run in append
    mode over [teams.txt], a process of its own, gets the first answer for
    it, and the single run over [ethics.md] and [teams.txt] the later one. *)
Example append_with_a_sampling_service :
  let run1 := main More.host_sampling (Demo.args [["docs"; "ethics.md"]] false)
                Demo.world in
  let run2 := main More.host_sampling (Demo.args [["docs"; "teams.txt"]] true)
                {| fs := fs (snd run1); calls := [] |} in
  let run3 := main More.host_sampling
                (Demo.args [["docs"; "ethics.md"]; ["docs"; "teams.txt"]] false)
                Demo.world in
  fst run1 = Ok tt /\ fst run2 = Ok tt /\ fst run3 = Ok tt
  /\ file_text (snd run2) ["questions.json"]
     = Some (Json.dumps
               (PList [with_id "ethics_1.md" Demo.ethics_record;
                       with_id "teams_1.md"
                         (Demo.qa "Teamwork" "Do you like teams?" "Yes.")]))
  /\ file_text (snd run3) ["questions.json"]
     = Some (Json.dumps
               (PList [with_id "ethics_1.md" Demo.ethics_record;
                       with_id "teams_1.md" Demo.banana])).
Proof. cbv zeta. repeat split; vm_compute; reflexivity. Qed.

(** * Further properties of the script *)

(** ** Files that are skipped *)

Lemma readers_get_none h suffix :
  suffix ∉ [".txt"; ".md"; ".docx"; ".pdf"; ".xlsx"] ->
  readers_get suffix (READERS h) = None.
Proof.
  intros Hnot. unfold READERS. cbn [readers_get].
  assert (Hne : forall k, k ∈ [".txt"; ".md"; ".docx"; ".pdf"; ".xlsx"] ->
                  String.eqb k suffix = false).
  { intros k Hk. apply String.eqb_neq. intros ->. contradiction. }
  rewrite !Hne by (repeat first [apply list_elem_of_here | apply list_elem_of_further]).
  reflexivity.
Qed.

(** X1: a file whose suffix, lowercased, is none of the five supported
    ones yields no record; it is not read (it need not even exist) and the
    service is not called: the state is left as it was. *)
Theorem X1_unsupported_type_skipped h file_path api_key model w :
  Py.lower (path_suffix file_path) ∉ [".txt"; ".md"; ".docx"; ".pdf"; ".xlsx"] ->
  process_file h file_path api_key model w = (Ok (PList []), w).
Proof.
  intros Hnot. unfold process_file. rewrite (readers_get_none h _ Hnot).
  reflexivity.
Qed.

Lemma X1_unsupported_type_skipped_witness :
  fs_lookup Demo.files ["docs"; "photo.PNG"] = None
  /\ process_file Demo.host ["docs"; "photo.PNG"] "key" "gemini-2.0-flash" Demo.world
     = (Ok (PList []), Demo.world).
Proof.
  split; [reflexivity|].
  apply (X1_unsupported_type_skipped Demo.host ["docs"; "photo.PNG"]).
  apply (bool_decide_eq_false_1 _). vm_compute. reflexivity.
Defined.

(** ** Runs that exit *)

(** [main_all_qa] by its guards. *)
Lemma main_all_qa_guards h args w :
  main_all_qa h args w =
  if negb (argparse_accepts args) then (Exit 2, w)
  else if negb (Py.truthy_str (get_api_key h)) then (Exit 1, w)
  else if bool_decide (collect_files h (fs w) (input args) = []) then (Exit 1, w)
  else bind (process_all h (collect_files h (fs w) (input args)) (get_api_key h)
               (model args) []) (handle_append h args) w.
Proof.
  unfold main_all_qa.
  destruct (argparse_accepts args) eqn:Hm; [|reflexivity].
  apply andb_true_iff in Hm as [_ Hm].
  apply bool_decide_eq_true_1 in Hm as [cfg Hcfg]. simpl.
  unfold bind at 1. unfold lift at 1, dict_getitem. rewrite Hcfg.
  destruct (Py.truthy_str (get_api_key h)); [|reflexivity]. simpl.
  unfold bind at 1. unfold reading at 1.
  destruct (bool_decide _); reflexivity.
Qed.

Lemma main_of_all_qa h args w :
  main h args w =
  match main_all_qa h args w with
  | (Ok all_qa, w1) => write_text (output args) (json_dumps h (PList all_qa)) w1
  | (Raise e, w1) => (Raise e, w1)
  | (Exit c, w1) => (Exit c, w1)
  end.
Proof. reflexivity. Qed.

(** A file that exits ends the loop. *)
Lemma process_all_exit h pre failed post api_key model all_qa acc w w1 c w2 :
  process_all h pre api_key model all_qa w = (Ok acc, w1) ->
  process_file h failed api_key model w1 = (Exit c, w2) ->
  process_all h (pre ++ failed :: post) api_key model all_qa w = (Exit c, w2).
Proof.
  intros Hpre Hfail. rewrite process_all_app. unfold bind at 1.
  rewrite Hpre. simpl. unfold bind at 1. rewrite Hfail. reflexivity.
Qed.

Lemma main_exits_with_file h args w pre failed post acc w1 c w2 :
  is_Some (MODELS !! model args) ->
  Py.truthy_str (get_api_key h) = true ->
  collect_files h (fs w) (input args) = pre ++ failed :: post ->
  process_all h pre (get_api_key h) (model args) [] w = (Ok acc, w1) ->
  process_file h failed (get_api_key h) (model args) w1 = (Exit c, w2) ->
  main h args w = (Exit c, w2).
Proof.
  intros Hmodel Hkey Hfiles Hpre Hfail.
  rewrite main_of_all_qa, main_all_qa_eq; auto.
  - rewrite Hfiles. unfold bind at 1.
    rewrite (process_all_exit _ _ _ _ _ _ _ _ _ _ _ _ Hpre Hfail). reflexivity.
  - rewrite Hfiles. destruct pre; discriminate.
Qed.

(** X2: when the library that reads a document type cannot be imported
    ([docx] for .docx, [fitz] for .pdf, [openpyxl] for .xlsx), the first
    file of that type ends the whole run with exit status 1: the file is
    not read, the files after it are not processed, and nothing is
    written. *)
Theorem X2_missing_reader_library_exits
    h args w pre failed post acc w1 lib :
  is_Some (MODELS !! model args) ->
  Py.truthy_str (get_api_key h) = true ->
  collect_files h (fs w) (input args) = pre ++ failed :: post ->
  process_all h pre (get_api_key h) (model args) [] w = (Ok acc, w1) ->
  (Py.lower (path_suffix failed), lib)
    ∈ [(".docx", "docx"); (".pdf", "fitz"); (".xlsx", "openpyxl")] ->
  installed h lib = false ->
  main h args w = (Exit 1, w1) /\ fs w1 = fs w.
Proof.
  intros Hmodel Hkey Hfiles Hpre Hlib Hmissing.
  split; [|eapply process_all_fs; exact Hpre].
  eapply main_exits_with_file; eauto.
  unfold process_file.
  repeat (apply elem_of_cons in Hlib as [Hlib|Hlib];
          [injection Hlib as -> ->; simpl;
           unfold bind, read_docx, read_pdf, read_xlsx, reading, import_module;
           rewrite Hmissing; reflexivity|]).
  apply elem_of_nil in Hlib. contradiction.
Qed.

Lemma X2_missing_reader_library_exits_witness :
  main (More.host_without "docx")
    (Demo.args [["docs"; "teams.txt"]; ["docs"; "cv.docx"];
                ["docs"; "interview.txt"]] false) More.world
  = (Exit 1,
     snd (process_file (More.host_without "docx") ["docs"; "teams.txt"] "key"
            "gemini-2.0-flash" More.world)).
Proof.
  refine (proj1 (X2_missing_reader_library_exits (More.host_without "docx")
           (Demo.args [["docs"; "teams.txt"]; ["docs"; "cv.docx"];
                       ["docs"; "interview.txt"]] false)
           More.world [["docs"; "teams.txt"]] ["docs"; "cv.docx"]
           [["docs"; "interview.txt"]] _ _ "docx" _ eq_refl eq_refl eq_refl
           _ eq_refl)).
  - apply MODELS_keys. left. reflexivity.
  - apply list_elem_of_here.
Defined.

(** X3: when the client library or jinja2 cannot be imported, a readable
    file with text ends in exit status 1 out of [process_file], before any
    prompt file is read and without a call to the service. *)
Theorem X3_missing_extractor_library_exits
    h file_path api_key model reader content w :
  readers_get (Py.lower (path_suffix file_path)) (READERS h) = Some reader ->
  reader file_path w = (Ok content, w) ->
  all_space content = false ->
  installed h "google.generativeai" = false \/ installed h "jinja2" = false ->
  process_file h file_path api_key model w = (Exit 1, w).
Proof.
  intros Hreader Hread Hblank Hmissing.
  rewrite (process_file_extracts _ _ _ _ _ _ _ Hreader Hread Hblank).
  assert (Hx : extract_with_gemini h content api_key model w = (Exit 1, w)).
  { unfold extract_with_gemini, bind, lift, import_module.
    destruct (installed h "google.generativeai"); [|reflexivity].
    destruct Hmissing as [Hm|Hm]; [discriminate|]. rewrite Hm. reflexivity. }
  rewrite Hx. reflexivity.
Qed.

Lemma X3_missing_extractor_library_exits_witness :
  process_file (More.host_without "jinja2") ["docs"; "teams.txt"] "key"
    "gemini-2.0-flash" More.world = (Exit 1, More.world).
Proof.
  apply (X3_missing_extractor_library_exits (More.host_without "jinja2")
           ["docs"; "teams.txt"] "key" "gemini-2.0-flash" read_txt "teams text"
           More.world eq_refl eq_refl eq_refl).
  right. reflexivity.
Defined.

(** X4: with no key in the environment (unset or empty) and nothing but
    whitespace typed at the prompt, the run exits with status 1 before any
    file is looked for: the state is left as it was. *)
Theorem X4_no_api_key_exits h args w :
  argparse_accepts args = true ->
  environ_GEMINI_API_KEY h = None \/ environ_GEMINI_API_KEY h = Some "" ->
  all_space (input_line h) = true ->
  main h args w = (Exit 1, w).
Proof.
  intros Hargs Henv Htyped.
  assert (Hkey : get_api_key h = "").
  { unfold get_api_key. apply strip_empty_iff in Htyped.
    destruct Henv as [-> | ->]; simpl; exact Htyped. }
  rewrite main_of_all_qa, main_all_qa_guards, Hargs, Hkey. reflexivity.
Qed.

Lemma X4_no_api_key_exits_witness :
  main More.host_without_key (Demo.args [["docs"; "teams.txt"]] false) Demo.world
  = (Exit 1, Demo.world).
Proof.
  apply (X4_no_api_key_exits More.host_without_key
           (Demo.args [["docs"; "teams.txt"]] false) Demo.world eq_refl).
  - left. reflexivity.
  - reflexivity.
Defined.

(** X5: input paths that do not exist are passed over, and when none of
    the inputs exists the run exits with status 1 with the state left as it
    was: no call to the service, nothing written. *)
Theorem X5_no_files_exits h args w :
  argparse_accepts args = true ->
  Py.truthy_str (get_api_key h) = true ->
  (forall p, p ∈ input args -> exists_ (fs w) p = false) ->
  collect_files h (fs w) (input args) = []
  /\ main h args w = (Exit 1, w).
Proof.
  intros Hargs Hkey Hmissing.
  assert (Hnone : collect_files h (fs w) (input args) = []).
  { rewrite collect_files_flat_map.
    induction (input args) as [|p inputs IH]; [reflexivity|].
    cbn [flat_map]. rewrite IH.
    - pose proof (Hmissing p (list_elem_of_here _ _)) as Hp.
      unfold is_dir, exists_ in *.
      destruct (fs_lookup (fs w) p); [discriminate|reflexivity].
    - intros q Hq. apply Hmissing. apply list_elem_of_further, Hq. }
  split; [exact Hnone|].
  rewrite main_of_all_qa, main_all_qa_guards, Hargs, Hkey, Hnone. reflexivity.
Qed.

Lemma X5_no_files_exits_witness :
  main Demo.host (Demo.args [["docs"; "gone.txt"]; ["nowhere"]] false) Demo.world
  = (Exit 1, Demo.world).
Proof.
  refine (proj2 (X5_no_files_exits Demo.host
                   (Demo.args [["docs"; "gone.txt"]; ["nowhere"]] false)
                   Demo.world eq_refl eq_refl _)).
  intros p Hp.
  repeat (apply elem_of_cons in Hp as [-> |Hp]; [reflexivity|]).
  apply elem_of_nil in Hp. contradiction.
Defined.

(** ** What a run touches *)

Lemma main_all_qa_fs h args w o w1 :
  main_all_qa h args w = (o, w1) -> fs w1 = fs w.
Proof.
  rewrite main_all_qa_guards.
  destruct (negb (argparse_accepts args)); [intros [= _ <-]; reflexivity|].
  destruct (negb (Py.truthy_str _)); [intros [= _ <-]; reflexivity|].
  destruct (bool_decide _); [intros [= _ <-]; reflexivity|].
  unfold bind.
  destruct (process_all _ _ _ _ _ _) as [[all_qa| |] w2] eqn:Hp;
    apply process_all_fs in Hp.
  - intros Ha. apply handle_append_world in Ha. congruence.
  - intros [= _ <-]. exact Hp.
  - intros [= _ <-]. exact Hp.
Qed.

(** X6: a run writes to the output path only, and only when it ends well:
    every other path is left as it was, a run that raises or exits leaves
    the whole file system as it was, and a run that ends well leaves at the
    output path the serialization of one list. *)
Theorem X6_only_the_output_is_written h args w o w' :
  main h args w = (o, w') ->
  (forall q, q <> output args -> fs_lookup (fs w') q = fs_lookup (fs w) q)
  /\ (o <> Ok tt -> fs w' = fs w)
  /\ (o = Ok tt ->
      exists all_qa,
        file_text w' (output args) = Some (json_dumps h (PList all_qa))).
Proof.
  rewrite main_of_all_qa.
  destruct (main_all_qa h args w) as [oa wa] eqn:Ha.
  apply main_all_qa_fs in Ha.
  destruct oa as [all_qa| |].
  - rewrite write_text_eq.
    destruct (fs_write_text (fs wa) (output args) _) as [fs'| |] eqn:Hw.
    + intros [= <- <-]. simpl. split; [|split].
      * intros q Hq. rewrite <- Ha. eapply fs_write_text_other; eauto.
      * intros Hno. contradiction.
      * intros _. exists all_qa. unfold file_text. simpl.
        rewrite (fs_write_text_written _ _ _ _ Hw). reflexivity.
    + intros [= <- <-]. rewrite Ha. repeat split; auto. discriminate.
    + intros [= <- <-]. rewrite Ha. repeat split; auto. discriminate.
  - intros [= <- <-]. rewrite Ha. repeat split; auto. discriminate.
  - intros [= <- <-]. rewrite Ha. repeat split; auto. discriminate.
Qed.

Lemma X6_only_the_output_is_written_witness :
  fs_lookup
    (fs (snd (main Demo.host (Demo.args [["docs"; "teams.txt"]] false) Demo.world)))
    ["docs"; "teams.txt"]
  = Some (File (Text "teams text"))
  /\ fs (snd (main Demo.host
                (Demo.args [["docs"; "broken.txt"]] false) Demo.world))
     = Demo.files.
Proof.
  split.
  - refine (proj1 (X6_only_the_output_is_written Demo.host
                     (Demo.args [["docs"; "teams.txt"]] false) Demo.world _ _
                     (surjective_pairing _)) ["docs"; "teams.txt"] _).
    discriminate.
  - refine (proj1 (proj2 (X6_only_the_output_is_written Demo.host
                     (Demo.args [["docs"; "broken.txt"]] false) Demo.world _ _
                     (surjective_pairing _))) _).
    vm_compute. discriminate.
Defined.

(** ** The calls to the service *)

(** X7: with the two libraries importable, the prompt files readable and
    the template rendering, the extractor makes exactly one call: it carries
    the key, the identifier and temperature of the selected model, the text
    of [system.txt] as system instruction, the rendered [user.txt] as
    prompt, the JSON mime type and the fixed response schema; and what the
    extractor returns is [json.loads] of the reply, or the exception of the
    call. *)
Theorem X7_the_request_sent
    h content api_key model_key w system_prompt user_source user_prompt :
  let prompts_dir := path_join (script_dir h) "prompts" in
  installed h "google.generativeai" = true ->
  installed h "jinja2" = true ->
  fs_read_text (fs w) (path_join prompts_dir "system.txt") = Ok system_prompt ->
  fs_read_text (fs w) (path_join prompts_dir "user.txt") = Ok user_source ->
  jinja_render h user_source content = Ok user_prompt ->
  extract_with_gemini h content api_key model_key w =
    (text <~ generate_content h (calls w)
               (request_of api_key model_key system_prompt user_prompt) ;;
     json_loads h text,
     {| fs := fs w;
        calls := calls w
                 ++ [request_of api_key model_key system_prompt user_prompt] |}).
Proof.
  intros prompts_dir Hgenai Hjinja Hsys Husr Hrender. subst prompts_dir.
  rewrite extract_with_gemini_eq. cbv zeta.
  rewrite Hgenai, Hjinja, Hsys, Husr, Hrender. reflexivity.
Qed.

Lemma X7_the_request_sent_witness :
  extract_with_gemini Demo.host "teams text" "key" "no-such-model" Demo.world
  = (Ok (PList [Demo.qa "Teamwork" "Do you like teams?" "Yes."]),
     {| fs := Demo.files;
        calls :=
          [ {| rq_api_key := "key";
               rq_model_name := "gemini-2.0-flash";
               rq_system_instruction := Demo.system_txt;
               rq_generation_config :=
                 {| gc_temperature := 0.7;
                    gc_response_mime_type := "application/json";
                    gc_response_schema := response_schema |};
               rq_user_prompt := "Document: teams text" |} ] |}).
Proof.
  rewrite (X7_the_request_sent Demo.host "teams text" "key" "no-such-model"
             Demo.world Demo.system_txt Demo.user_txt "Document: teams text"
             eq_refl eq_refl eq_refl eq_refl eq_refl).
  reflexivity.
Defined.

(** The calls one file adds to the log: none, or one request built from
    the prompt files. *)
Lemma process_file_calls h file_path api_key model w o w' :
  process_file h file_path api_key model w = (o, w') ->
  exists new,
    calls w' = calls w ++ new
    /\ length new <= 1
    /\ forall rq, rq ∈ new ->
         exists system_prompt user_prompt,
           fs_read_text (fs w)
             (path_join (path_join (script_dir h) "prompts") "system.txt")
           = Ok system_prompt
           /\ rq = request_of api_key model system_prompt user_prompt.
Proof.
  assert (Hnone : forall w0 : World, exists new : list Request,
            calls w0 = calls w0 ++ new /\ length new <= 1
            /\ forall rq, rq ∈ new ->
                 exists system_prompt user_prompt,
                   fs_read_text (fs w)
                     (path_join (path_join (script_dir h) "prompts") "system.txt")
                   = Ok system_prompt
                   /\ rq = request_of api_key model system_prompt user_prompt).
  { intros w0. exists []. rewrite app_nil_r. repeat split; [simpl; lia|].
    intros rq Hrq. apply elem_of_nil in Hrq. contradiction. }
  unfold process_file.
  destruct (readers_get _ _) as [reader|] eqn:Hreader;
    [|cbv beta iota; intros [= _ <-]; apply Hnone].
  unfold bind at 1. destruct (reader file_path w) as [oc w1] eqn:Hread.
  apply (readers_only_read _ _ _ _ _ _ _ Hreader) in Hread as ->.
  destruct oc as [content| |]; [|cbv beta iota; intros [= _ <-]; apply Hnone..].
  destruct (negb _); [cbv beta iota; intros [= _ <-]; apply Hnone|].
  unfold bind. rewrite extract_with_gemini_eq. cbv zeta.
  destruct (negb (installed h "google.generativeai"));
    [cbv beta iota; intros [= _ <-]; apply Hnone|].
  destruct (negb (installed h "jinja2")); [cbv beta iota; intros [= _ <-]; apply Hnone|].
  destruct (fs_read_text (fs w)
              (path_join (path_join (script_dir h) "prompts") "system.txt"))
    as [system_prompt| |] eqn:Hsys;
    [|cbv beta iota; intros [= _ <-]; apply Hnone..].
  destruct (fs_read_text (fs w)
              (path_join (path_join (script_dir h) "prompts") "user.txt"))
    as [user_source| |];
    [|cbv beta iota; intros [= _ <-]; apply Hnone..].
  destruct (jinja_render h user_source content) as [user_prompt| |];
    [|cbv beta iota; intros [= _ <-]; apply Hnone..].
  cbv beta iota. intros Hrun.
  assert (Hw' : w' = {| fs := fs w;
                        calls := calls w ++ [request_of api_key model
                                               system_prompt user_prompt] |}).
  { destruct (obind _ _); unfold lift in Hrun; congruence. }
  subst w'. eexists. split; [reflexivity|]. split; [simpl; lia|].
  intros rq Hrq. apply list_elem_of_singleton in Hrq as ->. eauto.
Qed.

Lemma process_all_calls h files api_key model all_qa w o w' :
  process_all h files api_key model all_qa w = (o, w') ->
  exists new,
    calls w' = calls w ++ new
    /\ length new <= length files
    /\ forall rq, rq ∈ new ->
         exists system_prompt user_prompt,
           fs_read_text (fs w)
             (path_join (path_join (script_dir h) "prompts") "system.txt")
           = Ok system_prompt
           /\ rq = request_of api_key model system_prompt user_prompt.
Proof.
  revert all_qa w. induction files as [|f rest IH]; intros all_qa w; simpl.
  - intros [= _ <-]. exists []. rewrite app_nil_r. repeat split; [simpl; lia|].
    intros rq Hrq. apply elem_of_nil in Hrq. contradiction.
  - unfold bind at 1.
    destruct (process_file h f api_key model w) as [op w1] eqn:Hpf.
    pose proof (process_file_fs _ _ _ _ _ _ _ Hpf) as Hfs.
    apply process_file_calls in Hpf as (new1 & Hc1 & Hl1 & Hr1).
    assert (Hstop : forall (o0 : outcome (list pyval)), (o0, w1) = (o, w') ->
              exists new, calls w' = calls w ++ new
                /\ length new <= S (length rest)
                /\ forall rq, rq ∈ new ->
                     exists system_prompt user_prompt,
                       fs_read_text (fs w)
                         (path_join (path_join (script_dir h) "prompts")
                            "system.txt") = Ok system_prompt
                       /\ rq = request_of api_key model system_prompt user_prompt).
    { intros o0 [= _ <-]. exists new1.
      split; [exact Hc1|]. split; [simpl; lia|exact Hr1]. }
    destruct op as [qa| |]; [|apply Hstop..].
    unfold bind at 1, lift at 1.
    destruct (py_iter qa); [|apply Hstop..].
    intros Hrest. apply IH in Hrest as (new2 & Hc2 & Hl2 & Hr2).
    exists (new1 ++ new2). split; [|split].
    + rewrite Hc2, Hc1, app_assoc. reflexivity.
    + rewrite length_app. simpl. lia.
    + intros rq Hrq. apply elem_of_app in Hrq as [Hrq|Hrq]; [auto|].
      rewrite <- Hfs. auto.
Qed.

Lemma main_calls h args w o w' :
  main h args w = (o, w') ->
  exists new,
    calls w' = calls w ++ new
    /\ length new <= length (collect_files h (fs w) (input args))
    /\ forall rq, rq ∈ new ->
         exists system_prompt user_prompt,
           fs_read_text (fs w)
             (path_join (path_join (script_dir h) "prompts") "system.txt")
           = Ok system_prompt
           /\ rq = request_of (get_api_key h) (model args) system_prompt
                    user_prompt.
Proof.
  assert (Hnone : forall (o0 : outcome unit), (o0, w) = (o, w') ->
    exists new,
      calls w' = calls w ++ new
      /\ length new <= length (collect_files h (fs w) (input args))
      /\ forall rq, rq ∈ new ->
           exists system_prompt user_prompt,
             fs_read_text (fs w)
               (path_join (path_join (script_dir h) "prompts") "system.txt")
             = Ok system_prompt
             /\ rq = request_of (get_api_key h) (model args) system_prompt
                      user_prompt).
  { intros o0 [= _ <-]. exists []. rewrite app_nil_r. repeat split; [simpl; lia|].
    intros rq Hrq. apply elem_of_nil in Hrq. contradiction. }
  rewrite main_of_all_qa, main_all_qa_guards.
  destruct (negb (argparse_accepts args)); [apply Hnone|].
  destruct (negb (Py.truthy_str _)); [apply Hnone|].
  destruct (bool_decide _); [apply Hnone|].
  unfold bind.
  destruct (process_all _ _ _ _ _ _) as [op w1] eqn:Hp.
  apply process_all_calls in Hp as (new & Hc & Hl & Hr).
  assert (Hsame : forall w2, calls w2 = calls w1 ->
            exists new0, calls w2 = calls w ++ new0
              /\ length new0 <= length (collect_files h (fs w) (input args))
              /\ forall rq, rq ∈ new0 ->
                   exists system_prompt user_prompt,
                     fs_read_text (fs w)
                       (path_join (path_join (script_dir h) "prompts")
                          "system.txt") = Ok system_prompt
                     /\ rq = request_of (get_api_key h) (model args)
                              system_prompt user_prompt).
  { intros w2 Hw2. exists new. rewrite Hw2. auto. }
  destruct op as [all_qa| |]; [|intros [= _ <-]; apply Hsame; reflexivity..].
  destruct (handle_append h args all_qa w1) as [oa wa] eqn:Ha.
  apply handle_append_world in Ha as ->.
  destruct oa as [agg| |]; [|intros [= _ <-]; apply Hsame; reflexivity..].
  rewrite write_text_eq.
  destruct (fs_write_text _ _ _); intros [= _ <-]; apply Hsame; reflexivity.
Qed.

Lemma process_file_skips h file_path api_key model w o w' :
  has_text h (fs w) file_path = false ->
  process_file h file_path api_key model w = (o, w') -> w' = w.
Proof.
  unfold has_text, process_file.
  destruct (readers_get _ _) as [reader|] eqn:Hreader;
    [|intros _ [= _ <-]; reflexivity].
  rewrite (reader_agree h _ reader file_path {| fs := fs w; calls := [] |} w
             Hreader eq_refl).
  unfold bind at 1. destruct (reader file_path w) as [oc w1] eqn:Hread.
  apply (readers_only_read _ _ _ _ _ _ _ Hreader) in Hread as ->.
  cbn [fst].
  destruct oc as [content| |]; [|intros _ [= _ <-]; reflexivity..].
  rewrite blank_test.
  intros Hblank. apply negb_false_iff in Hblank. rewrite Hblank.
  intros [= _ <-]. reflexivity.
Qed.

Lemma process_file_calls_bound h file_path api_key model w o w' :
  process_file h file_path api_key model w = (o, w') ->
  exists new,
    calls w' = calls w ++ new
    /\ length new <= (if has_text h (fs w) file_path then 1 else 0).
Proof.
  intros Hrun. destruct (has_text h (fs w) file_path) eqn:Htext.
  - apply process_file_calls in Hrun as (new & Hc & Hl & _). eauto.
  - apply (process_file_skips _ _ _ _ _ _ _ Htext) in Hrun as ->.
    exists []. rewrite app_nil_r. split; [reflexivity|simpl; lia].
Qed.

Lemma process_all_calls_bound h files api_key model all_qa w o w' :
  process_all h files api_key model all_qa w = (o, w') ->
  exists new,
    calls w' = calls w ++ new
    /\ length new <= length (List.filter (has_text h (fs w)) files).
Proof.
  revert all_qa w. induction files as [|f rest IH]; intros all_qa w; simpl.
  - intros [= _ <-]. exists []. rewrite app_nil_r. split; [reflexivity|simpl; lia].
  - unfold bind at 1.
    destruct (process_file h f api_key model w) as [op w1] eqn:Hpf.
    pose proof (process_file_fs _ _ _ _ _ _ _ Hpf) as Hfs.
    apply process_file_calls_bound in Hpf as (new1 & Hc1 & Hl1).
    assert (Hstop : forall (o0 : outcome (list pyval)), (o0, w1) = (o, w') ->
              exists new, calls w' = calls w ++ new
                /\ length new
                   <= length (if has_text h (fs w) f
                              then f :: List.filter (has_text h (fs w)) rest
                              else List.filter (has_text h (fs w)) rest)).
    { intros o0 [= _ <-]. exists new1. split; [exact Hc1|].
      destruct (has_text h (fs w) f); simpl; lia. }
    destruct op as [qa| |]; [|apply Hstop..].
    unfold bind at 1, lift at 1.
    destruct (py_iter qa); [|apply Hstop..].
    intros Hrest. apply IH in Hrest as (new2 & Hc2 & Hl2).
    rewrite Hfs in Hl2.
    exists (new1 ++ new2). split.
    + rewrite Hc2, Hc1, app_assoc. reflexivity.
    + rewrite length_app. destruct (has_text h (fs w) f); simpl; lia.
Qed.

(** X8: processing one file adds at most one call to the log, and none
    when the file is not one to extract from: its suffix is not a supported
    one, its reader does not return, or its text is blank.  So the calls a
    run adds are no more than the collected files that have a text to
    extract from: nothing is asked twice. *)
Theorem X8_at_most_one_call_per_file h :
  (forall file_path api_key model w o w',
     process_file h file_path api_key model w = (o, w') ->
     exists new,
       calls w' = calls w ++ new
       /\ length new <= (if has_text h (fs w) file_path then 1 else 0))
  /\ (forall args w o w',
        main h args w = (o, w') ->
        exists new,
          calls w' = calls w ++ new
          /\ length new
             <= length (List.filter (has_text h (fs w))
                          (collect_files h (fs w) (input args)))).
Proof.
  split; [apply process_file_calls_bound|].
  intros args w o w'.
  assert (Hnone : forall (o0 : outcome unit), (o0, w) = (o, w') ->
    exists new,
      calls w' = calls w ++ new
      /\ length new
         <= length (List.filter (has_text h (fs w))
                      (collect_files h (fs w) (input args)))).
  { intros o0 [= _ <-]. exists []. rewrite app_nil_r.
    split; [reflexivity|simpl; lia]. }
  rewrite main_of_all_qa, main_all_qa_guards.
  destruct (negb (argparse_accepts args)); [apply Hnone|].
  destruct (negb (Py.truthy_str _)); [apply Hnone|].
  destruct (bool_decide _); [apply Hnone|].
  unfold bind.
  destruct (process_all _ _ _ _ _ _) as [op w1] eqn:Hp.
  apply process_all_calls_bound in Hp as (new & Hc & Hl).
  assert (Hsame : forall w2, calls w2 = calls w1 ->
            exists new0, calls w2 = calls w ++ new0
              /\ length new0
                 <= length (List.filter (has_text h (fs w))
                              (collect_files h (fs w) (input args)))).
  { intros w2 Hw2. exists new. rewrite Hw2. auto. }
  destruct op as [all_qa| |]; [|intros [= _ <-]; apply Hsame; reflexivity..].
  destruct (handle_append h args all_qa w1) as [oa wa] eqn:Ha.
  apply handle_append_world in Ha as ->.
  destruct oa as [agg| |]; [|intros [= _ <-]; apply Hsame; reflexivity..].
  rewrite write_text_eq.
  destruct (fs_write_text _ _ _); intros [= _ <-]; apply Hsame; reflexivity.
Qed.

Lemma X8_at_most_one_call_per_file_witness :
  collect_files Demo.host More.files
    [["docs"; "blank.txt"]; ["docs"; "scan.pdf"]; ["docs"; "teams.txt"];
     ["docs"; "zeros.xlsx"]]
  = [["docs"; "blank.txt"]; ["docs"; "scan.pdf"]; ["docs"; "teams.txt"];
     ["docs"; "zeros.xlsx"]]
  /\ map (has_text Demo.host More.files)
       [["docs"; "blank.txt"]; ["docs"; "scan.pdf"]; ["docs"; "teams.txt"];
        ["docs"; "zeros.xlsx"]]
     = [false; false; true; false]
  /\ exists new,
       calls (snd (main Demo.host
                     (Demo.args [["docs"; "blank.txt"]; ["docs"; "scan.pdf"];
                                 ["docs"; "teams.txt"]; ["docs"; "zeros.xlsx"]]
                        false) More.world))
       = [] ++ new
       /\ length new <= 1.
Proof.
  split; [reflexivity|]. split; [reflexivity|].
  exact (proj2 (X8_at_most_one_call_per_file Demo.host)
           (Demo.args [["docs"; "blank.txt"]; ["docs"; "scan.pdf"];
                       ["docs"; "teams.txt"]; ["docs"; "zeros.xlsx"]] false)
           More.world _ _ (surjective_pairing _)).
Defined.

(** X9: every call of a run is made with the key of the run, the
    identifier and temperature of the model of the run, the text of
    [system.txt] as it was when the run began, the JSON mime type and the
    fixed response schema; only the prompt differs from file to file. *)
Theorem X9_requests_of_a_run h args w o w' :
  main h args w = (o, w') ->
  forall rq, rq ∈ drop (length (calls w)) (calls w') ->
    exists system_prompt user_prompt,
      fs_read_text (fs w)
        (path_join (path_join (script_dir h) "prompts") "system.txt")
      = Ok system_prompt
      /\ rq = request_of (get_api_key h) (model args) system_prompt user_prompt.
Proof.
  intros Hrun rq Hrq. apply main_calls in Hrun as (new & Hc & _ & Hr).
  rewrite Hc, drop_app_length in Hrq. auto.
Qed.

Lemma X9_requests_of_a_run_witness :
  Forall
    (fun rq =>
       exists system_prompt user_prompt,
         fs_read_text Demo.files ["scripts"; "prompts"; "system.txt"]
         = Ok system_prompt
         /\ rq = request_of "key" "gemini-2.0-flash" system_prompt user_prompt)
    (calls (snd (main Demo.host
                   (Demo.args [["docs"; "ethics.md"]; ["docs"; "teams.txt"]]
                      false) Demo.world))).
Proof.
  apply Forall_forall.
  exact (X9_requests_of_a_run Demo.host
           (Demo.args [["docs"; "ethics.md"]; ["docs"; "teams.txt"]] false)
           Demo.world _ _ (surjective_pairing _)).
Defined.

(** ** What a run writes *)

Lemma process_all_batches h files api_key model all_qa w all w' :
  process_all h files api_key model all_qa w = (Ok all, w') ->
  all = all_qa ++ concat (batches h files api_key model w)
  /\ length (batches h files api_key model w) = length files.
Proof.
  revert all_qa w. induction files as [|f rest IH]; intros all_qa w; simpl.
  - intros [= <- _]. rewrite app_nil_r. auto.
  - unfold bind at 1.
    destruct (process_file h f api_key model w) as [[qa| |] w1];
      [|discriminate..].
    unfold bind at 1, lift at 1.
    destruct (py_iter qa) as [items| |]; [|discriminate..].
    intros Hrest. apply IH in Hrest as [-> Hlen]. simpl.
    rewrite app_assoc, Hlen. auto.
Qed.

(** X10: a run that ends well has written the serialization of one list:
    the records of the prior output, if append mode found one, followed by
    the batches of the collected files, one after the other in the order
    the files were collected, each batch in the order [process_file]
    returned it; every collected file has its batch (an empty one when the
    file was skipped). *)
Theorem X10_output_is_prior_then_batches h args w w' :
  main h args w = (Ok tt, w') ->
  let files := collect_files h (fs w) (input args) in
  let produced := batches h files (get_api_key h) (model args) w in
  exists prior,
    file_text w' (output args)
    = Some (json_dumps h (PList (prior ++ concat produced)))
    /\ length produced = length files
    /\ (if append args && exists_ (fs w) (output args)
        then exists text,
               fs_read_text (fs w) (output args) = Ok text
               /\ json_loads h text = Ok (PList prior)
        else prior = []).
Proof.
  intros Hrun files produced. subst files produced.
  apply main_inv in Hrun as (all_qa & wa & Ha & Hw).
  apply main_all_qa_inv in Ha as (_ & _ & _ & new & Hp & Happ).
  pose proof (process_all_fs _ _ _ _ _ _ _ _ Hp) as Hfs.
  apply process_all_batches in Hp as [-> Hlen].
  apply write_text_inv in Hw as [_ Hw].
  apply fs_write_text_written in Hw.
  rewrite handle_append_eq, Hfs in Happ.
  destruct (append args && exists_ (fs w) (output args)).
  - destruct (fs_read_text (fs w) (output args)) as [text| |];
      [|discriminate..].
    simpl in Happ. destruct (json_loads h text) as [existing| |] eqn:Hl;
      [|discriminate..].
    simpl in Happ. destruct existing as [| | | | |prior|]; try discriminate.
    injection Happ as <-. exists prior. unfold file_text. rewrite Hw.
    split; [reflexivity|]. split; [exact Hlen|]. eauto.
  - injection Happ as <-. exists []. unfold file_text. rewrite Hw.
    split; [reflexivity|]. split; [exact Hlen|reflexivity].
Qed.

Lemma X10_output_is_prior_then_batches_witness :
  exists prior,
    file_text
      (snd (main Demo.host
              (Demo.args [["docs"; "blank.txt"]; ["docs"; "teams.txt"]] false)
              Demo.world)) ["questions.json"]
    = Some (json_dumps Demo.host
              (PList (prior
                      ++ concat [[]; [with_id "teams_1.md"
                                        (Demo.qa "Teamwork" "Do you like teams?"
                                           "Yes.")]])))
    /\ prior = [].
Proof.
  destruct (X10_output_is_prior_then_batches Demo.host
              (Demo.args [["docs"; "blank.txt"]; ["docs"; "teams.txt"]] false)
              Demo.world
              (snd (main Demo.host
                      (Demo.args [["docs"; "blank.txt"]; ["docs"; "teams.txt"]]
                         false) Demo.world)) eq_refl)
    as (prior & Hfile & _ & Hprior).
  exists prior. split; [exact Hfile|exact Hprior].
Defined.

(** X11: in append mode, a prior output that does not read as a list
    makes the run fail once all the files have been processed and the
    service has been called for them: with the exception of [json.loads]
    when the text is not JSON, with [TypeError] when it is JSON of another
    kind; the prior output is left as it was. *)
Theorem X11_unreadable_prior_output h args w new w1 text :
  argparse_accepts args = true ->
  Py.truthy_str (get_api_key h) = true ->
  collect_files h (fs w) (input args) <> [] ->
  process_all h (collect_files h (fs w) (input args)) (get_api_key h)
    (model args) [] w = (Ok new, w1) ->
  append args = true ->
  fs_read_text (fs w) (output args) = Ok text ->
  (forall prior, json_loads h text <> Ok (PList prior)) ->
  main h args w =
    (match json_loads h text with
     | Ok _ => Raise TypeError
     | Raise e => Raise e
     | Exit c => Exit c
     end, w1)
  /\ fs w1 = fs w
  /\ file_text w1 (output args) = Some text.
Proof.
  intros Hargs Hkey Hfiles Hp Happend Hread Hbad.
  pose proof (process_all_fs _ _ _ _ _ _ _ _ Hp) as Hfs.
  assert (Hexists : exists_ (fs w) (output args) = true).
  { unfold exists_, fs_read_text in *.
    destruct (fs_lookup (fs w) (output args)) as [[[]|]|];
      try discriminate; reflexivity. }
  split; [|split; [exact Hfs|]].
  - rewrite main_of_all_qa, main_all_qa_guards, Hargs, Hkey.
    rewrite (bool_decide_eq_false_2 _ Hfiles). simpl.
    unfold bind. rewrite Hp, handle_append_eq, Hfs, Happend, Hexists, Hread.
    simpl. destruct (json_loads h text) as [existing| |]; try reflexivity.
    simpl. destruct existing; try reflexivity.
    exfalso. eapply Hbad. reflexivity.
  - unfold file_text, fs_read_text in *. rewrite Hfs.
    destruct (fs_lookup (fs w) (output args)) as [[[]|]|];
      try discriminate. congruence.
Qed.

Lemma X11_unreadable_prior_output_witness :
  main Demo.host (Demo.args [["docs"; "teams.txt"]] true)
    More.world_with_bad_output
  = (Raise JSONDecodeError,
     snd (process_file Demo.host ["docs"; "teams.txt"] "key" "gemini-2.0-flash"
            More.world_with_bad_output))
  /\ length (calls (snd (process_file Demo.host ["docs"; "teams.txt"] "key"
                           "gemini-2.0-flash" More.world_with_bad_output))) = 1.
Proof.
  split; [|reflexivity].
  refine (proj1 (X11_unreadable_prior_output Demo.host
                   (Demo.args [["docs"; "teams.txt"]] true)
                   More.world_with_bad_output _ _ "not json"
                   eq_refl eq_refl _ eq_refl eq_refl eq_refl _)).
  - discriminate.
  - intros prior. discriminate.
Defined.

(** ** Which files a run takes *)

(** X12: the files a run collects are exactly: the input paths that exist
    and are no directories, whatever their names; and, for every input
    path that is a directory, the entries directly inside it whose names
    end with one of the five supported suffixes, the case of the letters
    counting. *)
Theorem X12_collected_files h fs inputs f :
  f ∈ collect_files h fs inputs <->
  exists p,
    p ∈ inputs
    /\ ((is_dir fs p = false /\ exists_ fs p = true /\ f = p)
        \/ (is_dir fs p = true
            /\ f ∈ map fst fs /\ f <> [] /\ path_parent f = p
            /\ exists ext,
                 ext ∈ [".txt"; ".md"; ".docx"; ".pdf"; ".xlsx"]
                 /\ Py.endswith (path_name f) ext = true)).
Proof.
  rewrite collect_files_flat_map, list_elem_of_In, in_flat_map.
  split.
  - intros (p & Hp & Hf). exists p. split; [apply list_elem_of_In, Hp|].
    destruct (is_dir fs p).
    + right. split; [reflexivity|].
      apply in_flat_map in Hf as (ext & Hext & Hf).
      apply list_elem_of_In in Hf. unfold glob in Hf.
      apply list_elem_of_filter in Hf as [Hpred Hin].
      apply andb_prop_elim in Hpred as [Hdir Hend].
      apply bool_decide_unpack in Hdir as [Hne Hparent].
      repeat split; auto.
      exists ext. split; [apply list_elem_of_In, Hext|].
      apply Is_true_eq_true, Hend.
    + left. split; [reflexivity|].
      destruct (exists_ fs p); [|destruct Hf].
      split; [reflexivity|]. destruct Hf as [<-|[]]. reflexivity.
  - intros (p & Hp & Hcase). exists p. split; [apply list_elem_of_In, Hp|].
    destruct Hcase as [(Hd & He & ->)|(Hd & Hin & Hne & Hparent & ext & Hext & Hend)].
    + rewrite Hd, He. left. reflexivity.
    + rewrite Hd. apply in_flat_map. exists ext.
      split; [apply list_elem_of_In, Hext|].
      apply list_elem_of_In. unfold glob. apply list_elem_of_filter.
      split; [|exact Hin].
      apply andb_prop_intro. split.
      * apply bool_decide_pack. auto.
      * apply Is_true_eq_left, Hend.
Qed.

(** X13: the inputs are expanded one by one in the order given: the files
    of the inputs [a ++ b] are the files of [a] followed by the files of
    [b]; nothing is deduplicated, so an input given twice is taken twice. *)
Theorem X13_inputs_in_order h fs a b :
  collect_files h fs (a ++ b) = collect_files h fs a ++ collect_files h fs b
  /\ collect_files h fs (a ++ a) = collect_files h fs a ++ collect_files h fs a.
Proof. split; apply collect_files_app. Qed.

(** ** What stamping does to a record *)

Lemma dict_set_keys k v d :
  map fst (dict_set k v d) =
  if bool_decide (k ∈ map fst d) then map fst d else map fst d ++ [k].
Proof.
  induction d as [|[k' v'] d IH]; simpl; [reflexivity|].
  destruct (String.eqb k' k) eqn:E; simpl.
  - apply String.eqb_eq in E as ->.
    rewrite bool_decide_eq_true_2 by apply list_elem_of_here. reflexivity.
  - apply String.eqb_neq in E. rewrite IH.
    destruct (bool_decide (k ∈ map fst d)) eqn:Hin.
    + apply bool_decide_eq_true_1 in Hin.
      rewrite bool_decide_eq_true_2 by (apply list_elem_of_further, Hin).
      reflexivity.
    + apply bool_decide_eq_false_1 in Hin.
      rewrite bool_decide_eq_false_2; [reflexivity|].
      intros Hk. apply elem_of_cons in Hk as [Hk|Hk]; [congruence|contradiction].
Qed.

(** The batch of a file against the response it was made from. *)
Lemma process_file_batch h file_path api_key model w v w' :
  process_file h file_path api_key model w = (Ok v, w') ->
  exists batch,
    py_iter v = Ok batch
    /\ (batch = []
        \/ exists content response,
             extract_with_gemini h content api_key model w
             = (Ok (PList response), w')
             /\ forallb is_dict response = true
             /\ batch = imap (fun i => with_id (make_id (path_stem file_path) i))
                             response).
Proof.
  intros Hrun. apply process_file_ok_inv in Hrun as [[-> _]|Hx].
  - exists []. auto.
  - destruct Hx as (content & qa_pairs & _ & Hx & Hst).
    rewrite stamp_spec in Hst. unfold stamped in Hst.
    destruct qa_pairs as [| | | |s|items|d]; try discriminate.
    + destruct s; [|discriminate]. injection Hst as <-. exists []. auto.
    + destruct (forallb is_dict items) eqn:Hd; [|discriminate].
      injection Hst as <-. eexists. split; [reflexivity|]. right. eauto.
    + destruct d; [|discriminate]. injection Hst as <-. exists []. auto.
Qed.

(** X14: stamping changes nothing of a record but its [id]: every other
    field of a record of the batch has the value it had in the response,
    the fields keep their order, and [id] takes the place of an [id] the
    response already had or else goes last. *)
Theorem X14_stamping_keeps_the_fields h file_path api_key model w v w' :
  process_file h file_path api_key model w = (Ok v, w') ->
  exists batch,
    py_iter v = Ok batch
    /\ (batch = []
        \/ exists content response,
             extract_with_gemini h content api_key model w
             = (Ok (PList response), w')
             /\ length batch = length response
             /\ forall i r, response !! i = Some r ->
                  exists d d',
                    r = PDict d /\ batch !! i = Some (PDict d')
                    /\ (forall k, k <> "id" -> dict_get k d' = dict_get k d)
                    /\ map fst d' =
                       if bool_decide ("id" ∈ map fst d) then map fst d
                       else map fst d ++ ["id"]).
Proof.
  intros Hrun.
  apply process_file_batch in Hrun as (batch & Hiter & Hshape).
  exists batch. split; [exact Hiter|].
  destruct Hshape as [->|(content & response & Hx & Hd & ->)];
    [left; reflexivity|].
  right. exists content, response. split; [exact Hx|].
  split; [apply length_imap|].
  intros i r Hr. rewrite list_lookup_imap, Hr. simpl.
  rewrite forallb_forall in Hd.
  assert (Hdict : is_dict r = true).
  { apply Hd, list_elem_of_In, list_elem_of_lookup. eauto. }
  destruct r as [| | | | | |d]; try discriminate.
  exists d, (dict_set "id" (PStr (make_id (path_stem file_path) i)) d).
  split; [reflexivity|]. split; [reflexivity|]. split.
  - intros k Hk. apply dict_get_set_ne. congruence.
  - apply dict_set_keys.
Qed.

Lemma X14_stamping_keeps_the_fields_witness :
  exists batch,
    py_iter (PList [with_id "teams_1.md"
                      (Demo.qa "Teamwork" "Do you like teams?" "Yes.")])
    = Ok batch
    /\ map (fun qa => match qa with
                      | PDict d => map fst d
                      | _ => []
                      end) batch
       = [["category"; "question"; "answer"; "id"]].
Proof.
  destruct (X14_stamping_keeps_the_fields Demo.host ["docs"; "teams.txt"] "key"
              "gemini-2.0-flash" Demo.world _ _ eq_refl)
    as (batch & Hiter & _).
  exists batch. split.
  - exact Hiter.
  - injection Hiter as <-. reflexivity.
Defined.

Lemma process_file_ids h file_path api_key model w v w' batch :
  process_file h file_path api_key model w = (Ok v, w') ->
  py_iter v = Ok batch ->
  forall i qa, batch !! i = Some qa ->
    record_id qa = Some (PStr (make_id (path_stem file_path) i)).
Proof.
  intros Hrun Hiter i qa Hi.
  apply process_file_batch in Hrun as (batch' & Hiter' & Hshape).
  rewrite Hiter in Hiter'. injection Hiter' as <-.
  destruct Hshape as [->|(c & resp & _ & Hd & ->)]; [discriminate|].
  rewrite list_lookup_imap in Hi.
  destruct (resp !! i) as [r|] eqn:Hr; [|discriminate].
  injection Hi as <-. apply record_id_with_id.
  rewrite forallb_forall in Hd. apply Hd.
  apply list_elem_of_In, list_elem_of_lookup. eauto.
Qed.

(** X15: the identifier depends on the stem of the file name and on the
    position only: two files with the same stem, in different directories
    or with different suffixes, give the same identifiers at the same
    positions, so identifiers can collide within one aggregate. *)
Theorem X15_same_stem_same_ids
    h p q api_key model w1 w1' v1 w2 w2' v2 batch1 batch2 :
  path_stem p = path_stem q ->
  process_file h p api_key model w1 = (Ok v1, w1') ->
  process_file h q api_key model w2 = (Ok v2, w2') ->
  py_iter v1 = Ok batch1 ->
  py_iter v2 = Ok batch2 ->
  forall i qa qb,
    batch1 !! i = Some qa -> batch2 !! i = Some qb ->
    record_id qa = record_id qb.
Proof.
  intros Hstem Hp Hq Hb1 Hb2 i qa qb Ha Hb.
  rewrite (process_file_ids _ _ _ _ _ _ _ _ Hp Hb1 _ _ Ha).
  rewrite (process_file_ids _ _ _ _ _ _ _ _ Hq Hb2 _ _ Hb).
  rewrite Hstem. reflexivity.
Qed.

Lemma X15_same_stem_same_ids_witness :
  record_id
    (with_id (make_id (path_stem ["docs"; "interview.txt"]) 0)
       (Demo.qa "Personal" "Tell me about yourself" "I am diligent."))
  = record_id
      (with_id (make_id (path_stem ["other"; "interview.md"]) 0)
         (Demo.qa "Personal" "Tell me about yourself" "I am diligent.")).
Proof.
  exact (X15_same_stem_same_ids Demo.host ["docs"; "interview.txt"]
           ["other"; "interview.md"] "key" "gemini-2.0-flash"
           More.world _ _ More.world _ _ _ _
           eq_refl eq_refl eq_refl eq_refl eq_refl 0 _ _ eq_refl eq_refl).
Defined.

(** ** Documents without text *)

Lemma all_space_app a b : all_space (a +:+ b) = all_space a && all_space b.
Proof.
  induction a as [|c a IH]; [reflexivity|].
  change (String c a +:+ b) with (String c (a +:+ b)). simpl.
  rewrite IH, andb_assoc. reflexivity.
Qed.

Lemma all_space_join sep parts :
  all_space sep = true ->
  Forall (fun part => all_space part = true) parts ->
  all_space (Py.join sep parts) = true.
Proof.
  intros Hsep Hparts. induction Hparts as [|part parts Hpart _ IH];
    [reflexivity|].
  destruct parts as [|next parts]; [exact Hpart|].
  change (Py.join sep (part :: next :: parts))
    with (part +:+ sep +:+ Py.join sep (next :: parts)).
  rewrite !all_space_app, Hpart, Hsep, IH. reflexivity.
Qed.

Lemma fold_left_snoc {A} (l acc : list A) :
  fold_left (fun acc x => acc ++ [x]) l acc = acc ++ l.
Proof.
  revert acc. induction l as [|x l IH]; intros acc; simpl.
  - rewrite app_nil_r. reflexivity.
  - rewrite IH, <- app_assoc. reflexivity.
Qed.

(** X16: a Word document whose paragraphs, or a PDF whose pages, hold no
    text but whitespace (a scanned PDF without a text layer, say) is
    skipped like an empty file: its text is the blank lines between the
    parts, so it yields no record and the service is not called. *)
Theorem X16_document_without_text_skipped h file_path api_key model w parts :
  (Py.lower (path_suffix file_path) = ".docx"
   /\ installed h "docx" = true /\ fs_docx (fs w) file_path = Ok parts)
  \/ (Py.lower (path_suffix file_path) = ".pdf"
      /\ installed h "fitz" = true /\ fs_pdf (fs w) file_path = Ok parts) ->
  Forall (fun part => all_space part = true) parts ->
  process_file h file_path api_key model w = (Ok (PList []), w).
Proof.
  intros Hkind Hblank.
  assert (Hjoin : all_space (Py.join (nl +:+ nl) parts) = true).
  { apply all_space_join; [reflexivity|exact Hblank]. }
  unfold process_file.
  destruct Hkind as [(-> & Hinst & Hdoc)|(-> & Hinst & Hdoc)]; simpl;
    unfold bind, read_docx, read_pdf, reading, import_module;
    rewrite Hinst, Hdoc; simpl; rewrite ?fold_left_snoc; simpl;
    rewrite blank_test, Hjoin; reflexivity.
Qed.

Lemma X16_document_without_text_skipped_witness :
  process_file Demo.host ["docs"; "scan.pdf"] "key" "gemini-2.0-flash" More.world
  = (Ok (PList []), More.world).
Proof.
  apply (X16_document_without_text_skipped Demo.host ["docs"; "scan.pdf"] "key"
           "gemini-2.0-flash" More.world [" "; ""; nl]).
  - right. repeat split.
  - repeat constructor.
Defined.

Lemma render_falsy_row h row :
  Forall (fun c => cell_truthy c = false) row ->
  all_space (Py.join tab (map (render_cell h) row)) = true.
Proof.
  intros Hrow. apply all_space_join; [reflexivity|].
  apply Forall_forall. intros text Htext.
  apply list_elem_of_In, in_map_iff in Htext as (c & <- & Hc).
  rewrite Forall_forall in Hrow. apply list_elem_of_In in Hc.
  unfold render_cell. rewrite (Hrow c Hc). reflexivity.
Qed.

(** X17: a workbook all of whose cells hold falsy values (empty cells,
    zeros, [False], empty strings) reads as the empty text: every row is
    left out, the file is skipped like an empty one, no record comes of
    it and the service is not called. *)
Theorem X17_workbook_of_falsy_cells_skipped h file_path api_key model w wb :
  Py.lower (path_suffix file_path) = ".xlsx" ->
  installed h "openpyxl" = true ->
  fs_xlsx (fs w) file_path = Ok wb ->
  Forall (fun sheet =>
            Forall (fun row => Forall (fun c => cell_truthy c = false) row) sheet)
         wb ->
  read_xlsx h file_path w = (Ok "", w)
  /\ process_file h file_path api_key model w = (Ok (PList []), w).
Proof.
  intros Hsuffix Hinst Hwb Hfalsy.
  assert (Hread : read_xlsx h file_path w = (Ok "", w)).
  { unfold read_xlsx, reading, import_module. rewrite Hinst, Hwb. simpl.
    rewrite xlsx_sheets_fold. simpl.
    assert (Hrows : Forall (fun row => Forall (fun c => cell_truthy c = false) row)
                      (concat wb)).
    { clear Hwb. induction Hfalsy as [|sheet wb' Hsheet _ IH]; [constructor|].
      cbn [concat]. apply Forall_app. split; assumption. }
    replace (List.filter _ _) with (@nil string); [reflexivity|].
    symmetry. induction Hrows as [|row rows Hrow _ IH]; [reflexivity|].
    cbn [map List.filter]. rewrite (render_falsy_row h row Hrow). exact IH. }
  split; [exact Hread|].
  unfold process_file. rewrite Hsuffix. simpl. unfold bind. rewrite Hread.
  reflexivity.
Qed.

Lemma X17_workbook_of_falsy_cells_skipped_witness :
  process_file Demo.host ["docs"; "zeros.xlsx"] "key" "gemini-2.0-flash"
    More.world
  = (Ok (PList []), More.world).
Proof.
  apply (X17_workbook_of_falsy_cells_skipped Demo.host ["docs"; "zeros.xlsx"]
           "key" "gemini-2.0-flash" More.world
           [[[CInt 0; CNone]; [CStr ""]]; [[CBool false]]]
           eq_refl eq_refl eq_refl).
  repeat constructor.
Defined.

(** ** Files that cannot be read *)

(** X18: a collected file whose reader raises (text that does not decode,
    a document its library rejects, a path that is a directory) ends the
    whole run with that exception: the service is not called for the file,
    the files after it are not processed, and nothing is written. *)
Theorem X18_unreadable_file_ends_run
    h args w pre failed post acc w1 reader e :
  is_Some (MODELS !! model args) ->
  Py.truthy_str (get_api_key h) = true ->
  collect_files h (fs w) (input args) = pre ++ failed :: post ->
  process_all h pre (get_api_key h) (model args) [] w = (Ok acc, w1) ->
  readers_get (Py.lower (path_suffix failed)) (READERS h) = Some reader ->
  reader failed w1 = (Raise e, w1) ->
  main h args w = (Raise e, w1) /\ fs w1 = fs w.
Proof.
  intros Hmodel Hkey Hfiles Hpre Hreader Hread.
  assert (Hpf : process_file h failed (get_api_key h) (model args) w1
                = (Raise e, w1)).
  { unfold process_file. rewrite Hreader. unfold bind. rewrite Hread.
    reflexivity. }
  split; [|eapply process_all_fs; exact Hpre].
  rewrite main_of_all_qa, main_all_qa_eq; auto.
  - rewrite Hfiles. unfold bind at 1.
    rewrite (process_all_raise _ _ _ _ _ _ _ _ _ _ _ _ Hpre Hpf). reflexivity.
  - rewrite Hfiles. destruct pre; discriminate.
Qed.

Lemma X18_unreadable_file_ends_run_witness :
  main Demo.host
    (Demo.args [["docs"; "notes.pdf"]; ["docs"; "teams.txt"]] false) More.world
  = (Raise BadFile, More.world).
Proof.
  refine (proj1 (X18_unreadable_file_ends_run Demo.host
           (Demo.args [["docs"; "notes.pdf"]; ["docs"; "teams.txt"]] false)
           More.world [] ["docs"; "notes.pdf"] [["docs"; "teams.txt"]] _ _
           (read_pdf Demo.host) BadFile _ eq_refl eq_refl eq_refl eq_refl
           eq_refl)).
  apply MODELS_keys. left. reflexivity.
Defined.
